(** * JobSearchTool: the request/response orchestration of [JobSearchingAgent]

    A shallow embedding of [job-hunt-agent-new.py]: the two operations
    [find_jobs] and [get_industry_trends], the generation adapter
    [_generate_text], and the fragment of Python they run on (text,
    JSON-like values, exceptions, [try]/[except Exception]).

    The two network services (the extraction provider behind
    [self.firecrawl.extract] and the HTTP endpoint behind [requests.post])
    are not part of the program: they are taken as an environment that answers
    each request, possibly depending on the calls made before. *)

From Stdlib Require Import String Ascii ZArith NArith Bool Lia DecimalString List.
Import ListNotations.

Set Implicit Arguments.

(* ===================================================================== *)
(** * Python text *)
(* ===================================================================== *)

(** A Python [str] is a sequence of Unicode code points; [len] counts code
    points, not bytes. *)
Definition pystr := list N.

(** Source literals are written as UTF-8 text and decoded once. *)
Fixpoint utf8_decode (bs : list N) : pystr :=
  match bs with
  | [] => []
  | b0 :: r0 =>
      if (b0 <? 128)%N then b0 :: utf8_decode r0
      else match r0 with
           | [] => []
           | b1 :: r1 =>
               if (b0 <? 224)%N
               then ((b0 - 192) * 64 + (b1 - 128))%N :: utf8_decode r1
               else match r1 with
                    | [] => []
                    | b2 :: r2 =>
                        if (b0 <? 240)%N
                        then ((b0 - 224) * 4096 + (b1 - 128) * 64 + (b2 - 128))%N
                               :: utf8_decode r2
                        else match r2 with
                             | [] => []
                             | b3 :: r3 =>
                                 ((b0 - 240) * 262144 + (b1 - 128) * 4096
                                  + (b2 - 128) * 64 + (b3 - 128))%N
                                   :: utf8_decode r3
                             end
                    end
           end
  end.

Definition py (s : string) : pystr :=
  utf8_decode (map N_of_ascii (list_ascii_of_string s)).

(** What the Unicode character database decides and the program text does
    not: case mapping of text that is not pure ASCII, and which code points
    beyond ASCII [repr] prints as they are. *)
Class UnicodeData := {
  unicode_lower : pystr -> pystr;
  unicode_isprintable : N -> bool
}.

Definition is_ascii (s : pystr) : bool := forallb (fun c => (c <? 128)%N) s.

Definition ascii_lower (c : N) : N :=
  if ((65 <=? c) && (c <=? 90))%N then (c + 32)%N else c.

(** [s.lower()] *)
Definition lower {U : UnicodeData} (s : pystr) : pystr :=
  if is_ascii s then map ascii_lower s else unicode_lower s.

Fixpoint starts_with (p s : pystr) : bool :=
  match p, s with
  | [], _ => true
  | _ :: _, [] => false
  | a :: p', b :: s' => (a =? b)%N && starts_with p' s'
  end.

(** Left-to-right scan of [s.replace(old, new)] for a non-empty [old]:
    [skip] counts the characters of a match still to be dropped. *)
Fixpoint replace_from (old new : pystr) (skip : nat) (s : pystr) : pystr :=
  match s with
  | [] => []
  | c :: t =>
      match skip with
      | S k => replace_from old new k t
      | O => if starts_with old s
             then new ++ replace_from old new (length old - 1) t
             else c :: replace_from old new 0 t
      end
  end.

(** [s.replace(old, new)]; an empty [old] matches before every character
    and at the end. *)
Definition replace (s old new : pystr) : pystr :=
  match old with
  | [] => new ++ flat_map (fun c => c :: new) s
  | _ :: _ => replace_from old new 0 s
  end.

(** [sep.join(parts)] *)
Fixpoint join (sep : pystr) (parts : list pystr) : pystr :=
  match parts with
  | [] => []
  | [p] => p
  | p :: rest => p ++ sep ++ join sep rest
  end.

(** [s.split(sep)] for a one-character separator. *)
Fixpoint split_on (sep : N) (s : pystr) : list pystr :=
  match s with
  | [] => [[]]
  | c :: t =>
      if (c =? sep)%N then [] :: split_on sep t
      else match split_on sep t with
           | [] => [[c]]
           | w :: ws => (c :: w) :: ws
           end
  end.

(** [len(s)] *)
Definition len (s : pystr) : N := N.of_nat (length s).

(** [str(n)] for an [int]. *)
Definition str_of_int (z : Z) : pystr := py (NilZero.string_of_int (Z.to_int z)).

(** [needle in hay], as a proposition and as the test that decides it. *)
Definition substring (needle hay : pystr) : Prop :=
  exists pre post, hay = pre ++ needle ++ post.

Fixpoint str_in (needle hay : pystr) : bool :=
  starts_with needle hay
  || match hay with
     | [] => false
     | _ :: t => str_in needle t
     end.

Fixpoint pystr_eqb (a b : pystr) : bool :=
  match a, b with
  | [], [] => true
  | x :: a', y :: b' => (x =? y)%N && pystr_eqb a' b'
  | _, _ => false
  end.

(** ** [repr] of a [str] (CPython's [unicode_repr]) *)

Definition hex_digit (d : N) : N :=
  if (d <? 10)%N then (48 + d)%N else (87 + d)%N.

Fixpoint hex_digits (width : nat) (n : N) : pystr :=
  match width with
  | O => []
  | S w => hex_digits w (n / 16) ++ [hex_digit (n mod 16)]
  end.

(** The enclosing quote: a single quote, unless the text has single quotes
    and no double quote. *)
Definition repr_quote (s : pystr) : N :=
  if existsb (N.eqb 39) s && negb (existsb (N.eqb 34) s) then 34%N else 39%N.

Definition escape_char {U : UnicodeData} (quote c : N) : pystr :=
  if ((c =? quote) || (c =? 92))%N then [92%N; c]
  else if (c =? 9)%N then [92; 116]%N
  else if (c =? 10)%N then [92; 110]%N
  else if (c =? 13)%N then [92; 114]%N
  else if ((c <? 32) || (c =? 127))%N then [92; 120]%N ++ hex_digits 2 c
  else if (c <? 127)%N then [c]
  else if unicode_isprintable c then [c]
  else if (c <=? 255)%N then [92; 120]%N ++ hex_digits 2 c
  else if (c <=? 65535)%N then [92; 117]%N ++ hex_digits 4 c
  else [92; 85]%N ++ hex_digits 8 c.

Definition str_repr {U : UnicodeData} (s : pystr) : pystr :=
  let q := repr_quote s in
  [q] ++ flat_map (escape_char q) s ++ [q].

(** The characters [repr] copies unchanged between the quotes. *)
Definition kept_by_repr {U : UnicodeData} (quote c : N) : bool :=
  negb (c =? quote)%N && negb (c =? 92)%N && (32 <=? c)%N && negb (c =? 127)%N
  && ((c <? 127)%N || unicode_isprintable c).

Definition repr_verbatim {U : UnicodeData} (s : pystr) : bool :=
  forallb (kept_by_repr (repr_quote s)) s.

(* ===================================================================== *)
(** * Python values *)
(* ===================================================================== *)

(** A [float] as far as the program observes one: whether it is zero (its
    truth value) and the text [repr] prints for it. *)
Record pyfloat := { float_is_zero : bool; float_repr : pystr }.

(** An instance of a class that defines none of [__bool__], [__len__],
    [__getitem__] and [get], such as the response models of an SDK. *)
Record pyobject := { obj_class : pystr; obj_repr : pystr }.

(** The values an extraction or generation response is made of. A [dict]
    keeps its items in insertion order; its keys are strings, as in JSON. *)
#[warning="-register-all"]
Inductive pyval :=
| PNone
| PBool (b : bool)
| PInt (z : Z)
| PFloat (f : pyfloat)
| PStr (s : pystr)
| PList (items : list pyval)
| PDict (entries : list (pystr * pyval))
| PObject (o : pyobject).

(** [type(v).__name__] *)
Definition type_name (v : pyval) : pystr :=
  match v with
  | PNone => py "NoneType"
  | PBool _ => py "bool"
  | PInt _ => py "int"
  | PFloat _ => py "float"
  | PStr _ => py "str"
  | PList _ => py "list"
  | PDict _ => py "dict"
  | PObject o => obj_class o
  end.

(** [bool(v)]: what [if v] and [not v] test. *)
Definition truthy (v : pyval) : bool :=
  match v with
  | PNone => false
  | PBool b => b
  | PInt z => negb (z =? 0)%Z
  | PFloat f => negb (float_is_zero f)
  | PStr s => negb (pystr_eqb s [])
  | PList items => match items with [] => false | _ :: _ => true end
  | PDict entries => match entries with [] => false | _ :: _ => true end
  | PObject _ => true
  end.

(** [repr(v)] *)
Fixpoint repr {U : UnicodeData} (v : pyval) : pystr :=
  match v with
  | PNone => py "None"
  | PBool true => py "True"
  | PBool false => py "False"
  | PInt z => str_of_int z
  | PFloat f => float_repr f
  | PStr s => str_repr s
  | PList items => py "[" ++ join (py ", ") (map repr items) ++ py "]"
  | PDict entries =>
      py "{"
      ++ join (py ", ")
           (map (fun kv => str_repr (fst kv) ++ py ": " ++ repr (snd kv)) entries)
      ++ py "}"
  | PObject o => obj_repr o
  end.

(** [str(v)], which is what a replacement field [{v}] of an f-string prints. *)
Definition str_of {U : UnicodeData} (v : pyval) : pystr :=
  match v with
  | PStr s => s
  | _ => repr v
  end.

(** [isinstance(v, dict)] *)
Definition isinstance_dict (v : pyval) : bool :=
  match v with
  | PDict _ => true
  | _ => false
  end.

Fixpoint lookup (entries : list (pystr * pyval)) (k : pystr) : option pyval :=
  match entries with
  | [] => None
  | (k', v) :: rest => if pystr_eqb k' k then Some v else lookup rest k
  end.

(** ** Exceptions *)

(** A raised exception: its class, whether that class derives from
    [Exception] (only [KeyboardInterrupt], [SystemExit] and the like do
    not), and [str(e)]. *)
Record pyexc := {
  exc_class : pystr;
  exc_is_Exception : bool;
  exc_str : pystr
}.

Inductive result (A : Type) :=
| Return (a : A)
| Raise (e : pyexc).
Arguments Return {A} a.
Arguments Raise {A} e.

Definition KeyError {U : UnicodeData} (key : pyval) : pyexc :=
  {| exc_class := py "KeyError"; exc_is_Exception := true; exc_str := repr key |}.

Definition IndexError (msg : pystr) : pyexc :=
  {| exc_class := py "IndexError"; exc_is_Exception := true; exc_str := msg |}.

Definition TypeError (msg : pystr) : pyexc :=
  {| exc_class := py "TypeError"; exc_is_Exception := true; exc_str := msg |}.

Definition AttributeError (msg : pystr) : pyexc :=
  {| exc_class := py "AttributeError"; exc_is_Exception := true; exc_str := msg |}.

Definition HTTPError (msg : pystr) : pyexc :=
  {| exc_class := py "HTTPError"; exc_is_Exception := true; exc_str := msg |}.

Definition JSONDecodeError (msg : pystr) : pyexc :=
  {| exc_class := py "JSONDecodeError"; exc_is_Exception := true; exc_str := msg |}.

(** ** Attribute and item access *)

(** [v.get(key, default)]: only a [dict] has the method. *)
Definition method_get (v : pyval) (key : pystr) (default : pyval) : result pyval :=
  match v with
  | PDict entries =>
      match lookup entries key with
      | Some x => Return x
      | None => Return default
      end
  | _ => Raise (AttributeError
                  (py "'" ++ type_name v ++ py "' object has no attribute 'get'"))
  end.

Inductive subscript :=
| Index (i : Z)
| Key (k : pystr).

(** [seq[i]] for an integer [i]; a negative [i] counts from the end. *)
Definition seq_index {A : Type} (l : list A) (i : Z) : option A :=
  let n := Z.of_nat (length l) in
  let j := if (i <? 0)%Z then (i + n)%Z else i in
  if ((0 <=? j) && (j <? n))%Z then nth_error l (Z.to_nat j) else None.

(** [v[sub]] (messages as CPython 3.11 and later word them). *)
Definition getitem {U : UnicodeData} (v : pyval) (sub : subscript) : result pyval :=
  match v, sub with
  | PDict entries, Key k =>
      match lookup entries k with
      | Some x => Return x
      | None => Raise (KeyError (PStr k))
      end
  | PDict _, Index i => Raise (KeyError (PInt i))
  | PList items, Index i =>
      match seq_index items i with
      | Some x => Return x
      | None => Raise (IndexError (py "list index out of range"))
      end
  | PList _, Key _ =>
      Raise (TypeError (py "list indices must be integers or slices, not str"))
  | PStr s, Index i =>
      match seq_index s i with
      | Some c => Return (PStr [c])
      | None => Raise (IndexError (py "string index out of range"))
      end
  | PStr _, Key _ =>
      Raise (TypeError (py "string indices must be integers, not 'str'"))
  | _, _ =>
      Raise (TypeError (py "'" ++ type_name v ++ py "' object is not subscriptable"))
  end.

(** ** The HTTP response of [requests] *)

(** [json_body] is what [response.json()] gives: the decoded body, or the
    message of the [JSONDecodeError] it raises. *)
Record Response := {
  status_code : Z;
  reason : pystr;
  url : pystr;
  json_body : pystr + pyval
}.

(** [response.raise_for_status()]: raises for 4xx and 5xx, for nothing else. *)
Definition raise_for_status (r : Response) : result unit :=
  if ((400 <=? status_code r) && (status_code r <? 500))%Z then
    Raise (HTTPError (str_of_int (status_code r) ++ py " Client Error: "
                      ++ reason r ++ py " for url: " ++ url r))
  else if ((500 <=? status_code r) && (status_code r <? 600))%Z then
    Raise (HTTPError (str_of_int (status_code r) ++ py " Server Error: "
                      ++ reason r ++ py " for url: " ++ url r))
  else Return tt.

(** [response.json()] *)
Definition response_json (r : Response) : result pyval :=
  match json_body r with
  | inl msg => Raise (JSONDecodeError msg)
  | inr v => Return v
  end.

(* ===================================================================== *)
(** * Schema definitions *)
(* ===================================================================== *)

(** [DefineStructure]: one job posting; every field defaults to [None]. *)
Record DefineStructure := {
  region : option pystr;
  role : option pystr;
  job_title : option pystr;
  experience : option pystr;
  job_link : option pystr
}.

(** [TrendIndustry]: one industry trend record. *)
Record TrendIndustry := {
  industry : option pystr;
  avg_salary : option pyfloat;
  growth_rate : option pyfloat;
  demand_level : option pystr;
  top_skills : option (list pystr)
}.

Definition opt_val {A : Type} (f : A -> pyval) (o : option A) : pyval :=
  match o with
  | Some a => f a
  | None => PNone
  end.

(** A posting as the JSON object the provider returns for it. *)
Definition posting_dict (p : DefineStructure) : pyval :=
  PDict [ (py "region", opt_val PStr (region p));
          (py "role", opt_val PStr (role p));
          (py "job_title", opt_val PStr (job_title p));
          (py "experience", opt_val PStr (experience p));
          (py "job_link", opt_val PStr (job_link p)) ].

Definition trend_dict (t : TrendIndustry) : pyval :=
  PDict [ (py "industry", opt_val PStr (industry t));
          (py "avg_salary", opt_val PFloat (avg_salary t));
          (py "growth_rate", opt_val PFloat (growth_rate t));
          (py "demand_level", opt_val PStr (demand_level t));
          (py "top_skills",
            opt_val (fun l => PList (map PStr l)) (top_skills t)) ].

(** The [schema] parameter of an extraction: [C.model_json_schema()] of one
    of the two wrapper classes, named here by the class. *)
Inductive schema :=
| ExtractSchema          (* job_postings: List[DefineStructure] *)
| IndustryTrendsSchema.  (* industry_trends: List[TrendIndustry] *)

(* ===================================================================== *)
(** * The agent, the trace and the two services *)
(* ===================================================================== *)

Record FirecrawlApp := { api_key : pystr }.

Record JobSearchingAgent := {
  firecrawl : FirecrawlApp;
  hf_api_key : pystr;
  model_url : pystr
}.

(** [JobSearchingAgent.__init__] *)
Definition __init__ (firecrawl_api_key hf_api_key model_url : pystr)
  : JobSearchingAgent :=
  {| firecrawl := {| api_key := firecrawl_api_key |};
     hf_api_key := hf_api_key;
     model_url := model_url |}.

(** What can be observed of a run: the calls recorded by [@track] and the
    requests sent to the two services, oldest first. *)
Inductive event :=
| Tracked (fn : pystr) (args : list pyval)
| Extract (key : pystr) (urls : list pystr) (prompt : pystr) (sch : schema)
| Post (target : pystr) (headers : list (pystr * pystr)) (json : pyval).

(** The services: each answers a request with a value or an exception, and
    may take into account everything that happened before. *)
Record Env := {
  firecrawl_extract :
    list event -> pystr -> list pystr -> pystr -> schema -> result pyval;
  requests_post :
    list event -> pystr -> list (pystr * pystr) -> pyval -> result Response
}.

(** The mutable state a method runs in: the agent object [self] and the
    trace so far. *)
Record state := {
  self : JobSearchingAgent;
  trace : list event
}.

Definition record (ev : event) (st : state) : state :=
  {| self := self st; trace := trace st ++ [ev] |}.

(** ** State and exceptions *)

Definition M (A : Type) : Type := state -> result A * state.

Definition ret {A : Type} (a : A) : M A := fun st => (Return a, st).

Definition bind {A B : Type} (m : M A) (k : A -> M B) : M B :=
  fun st =>
    match m st with
    | (Return a, st') => k a st'
    | (Raise e, st') => (Raise e, st')
    end.

Declare Scope py_scope.
Delimit Scope py_scope with M.
Notation "x <- m ;; k" := (bind m (fun x => k))
  (at level 61, m at next level, right associativity) : py_scope.
Notation "m ;;; k" := (bind m (fun _ => k))
  (at level 61, right associativity) : py_scope.

(** A pure operation that may raise. *)
Definition lift {A : Type} (r : result A) : M A := fun st => (r, st).

(** [self] *)
Definition get_self : M JobSearchingAgent := fun st => (Return (self st), st).

(** [try: body / except Exception as e: handler e]: an exception whose class
    does not derive from [Exception] passes through. *)
Definition try_except {A : Type} (body : M A) (handler : pyexc -> M A) : M A :=
  fun st =>
    match body st with
    | (Return a, st') => (Return a, st')
    | (Raise e, st') =>
        if exc_is_Exception e then handler e st' else (Raise e, st')
    end.

(** The [@track] decorator: the call is recorded, then the body runs. *)
Definition track {A : Type} (fn : pystr) (args : list pyval) (body : M A) : M A :=
  fun st => body (record (Tracked fn args) st).

(* ===================================================================== *)
(** * [JobSearchingAgent] *)
(* ===================================================================== *)

Section Agent.

Context {U : UnicodeData}.
Variable E : Env.

Local Open Scope py_scope.

(** [self.firecrawl.extract(urls=urls, params={'prompt': ..., 'schema': ...})] *)
Definition extract (urls : list pystr) (prompt : pystr) (sch : schema) : M pyval :=
  fun st =>
    (firecrawl_extract E (trace st) (api_key (firecrawl (self st))) urls prompt sch,
     record (Extract (api_key (firecrawl (self st))) urls prompt sch) st).

(** [requests.post(target, headers=headers, json=payload)] *)
Definition post (target : pystr) (headers : list (pystr * pystr)) (payload : pyval)
  : M Response :=
  fun st =>
    (requests_post E (trace st) target headers payload,
     record (Post target headers payload) st).

(** ** The generation adapter *)

Definition _generate_text (prompt : pystr) : M pyval :=
  track (py "_generate_text") [PStr prompt]
    (me <- get_self ;;
     let headers :=
       [ (py "Authorization", py "Bearer " ++ hf_api_key me);
         (py "Content-Type", py "application/json") ] in
     let payload :=
       PDict [ (py "inputs", PStr prompt);
               (py "parameters", PDict [ (py "max_new_tokens", PInt 800) ]) ] in
     try_except
       (response <- post (model_url me) headers payload ;;
        lift (raise_for_status response) ;;;
        body <- lift (response_json response) ;;
        first <- lift (getitem body (Index 0)) ;;
        lift (getitem first (Key (py "generated_text"))))
       (fun e => ret (PStr (py "Error generating text: " ++ exc_str e)))).

(** ** [find_jobs] *)

(** The local [urls] of [find_jobs]. *)
Definition find_jobs_urls (job_title location : pystr) : list pystr :=
  let formatted_job_title := replace (lower job_title) (py " ") (py "-") in
  let formatted_location := replace (lower location) (py " ") (py "-") in
  [ py "https://www.naukri.com/" ++ formatted_job_title
      ++ py "-jobs-in-" ++ formatted_location;
    py "https://www.indeed.com/jobs?q=" ++ formatted_job_title
      ++ py "&l=" ++ formatted_location;
    py "https://www.monster.com/jobs/search/?q=" ++ formatted_job_title
      ++ py "&where=" ++ formatted_location ].

(** The ['prompt'] entry of the extraction parameters of [find_jobs]. *)
Definition find_jobs_extract_prompt
    (job_title location : pystr) (experience_years : Z) (skills_string : pystr)
  : pystr :=
  py "Extract job postings by region, roles, job titles, and experience from these job sites.
                    Look for jobs that match these criteria:
                    - Job Title: Should be related to " ++ job_title ++ py "
                    - Location: " ++ location ++ py " (include remote jobs if available)
                    - Experience: Around " ++ str_of (PInt experience_years) ++ py " years
                    - Skills: Should match at least some of these skills: " ++ skills_string ++ py "
                    - Job Type: Full-time, Part-time, Contract, Temporary, Internship
                    Extract:
                    - region, role, job_title, experience, job_link
                    MAX 10 postings.
                    ".

(** The local [prompt] of [find_jobs]: the summarization prompt. *)
Definition find_jobs_prompt (jobs : pyval) : pystr :=
  py "As a career expert, analyze these job opportunities:
Jobs:
" ++ str_of jobs ++ py "
INSTRUCTIONS:
1. Select best matching 5-6 jobs.
2. Provide:
💼 SELECTED JOB OPPORTUNITIES
- Job Title and Role
- Region/Location
- Experience Required
- Pros and Cons
- Job Link
🔍 SKILLS MATCH ANALYSIS
- Skills match
- Experience fit
- Growth potential
💡 RECOMMENDATIONS
- Top 3 jobs
- Career growth
📝 APPLICATION TIPS
- Resume and strategy tips
".

Definition no_job_listings : pystr :=
  py "No job listings found matching your criteria.".

Definition find_jobs
    (job_title location : pystr) (experience_years : Z) (skills : list pystr)
  : M pyval :=
  track (py "find_jobs")
    [PStr job_title; PStr location; PInt experience_years; PList (map PStr skills)]
    (let skills_string := join (py ", ") skills in
     let urls := find_jobs_urls job_title location in
     try_except
       (raw_response <-
          extract urls
            (find_jobs_extract_prompt job_title location experience_years skills_string)
            ExtractSchema ;;
        succeeded <-
          (if isinstance_dict raw_response
           then flag <- lift (method_get raw_response (py "success") PNone) ;;
                ret (truthy flag)
           else ret false) ;;
        jobs <-
          (if succeeded
           then data <- lift (getitem raw_response (Key (py "data"))) ;;
                lift (method_get data (py "job_postings") (PList []))
           else ret (PList [])) ;;
        if negb (truthy jobs)
        then ret (PStr no_job_listings)
        else _generate_text (find_jobs_prompt jobs))
       (fun e =>
          ret (PStr (py "An error occurred while searching for jobs: " ++ exc_str e)))).

(** ** [get_industry_trends] *)

(** The local [urls] of [get_industry_trends]. *)
Definition get_industry_trends_urls (job_category : pystr) : list pystr :=
  [ py "https://www.payscale.com/research/US/Job="
      ++ replace job_category (py " ") (py "_") ++ py "/Salary";
    py "https://www.glassdoor.com/Salaries/"
      ++ replace (lower job_category) (py " ") (py "-")
      ++ py "-salary-SRCH_KO0," ++ str_of (PInt (Z.of_N (len job_category)))
      ++ py ".htm" ].

Definition get_industry_trends_extract_prompt (job_category : pystr) : pystr :=
  py "Extract industry trends data for the " ++ job_category ++ py " industry.
                    For each, extract:
                    - industry, avg_salary, growth_rate, demand_level, top_skills
                    3-5 roles/sub-categories.
                    ".

(** The local [prompt] of [get_industry_trends]. *)
Definition get_industry_trends_prompt (job_category : pystr) (industries : pyval)
  : pystr :=
  py "Analyze these trends for " ++ job_category ++ py ":
" ++ str_of industries ++ py "
📊 INDUSTRY TRENDS SUMMARY
🔥 TOP SKILLS IN DEMAND
📈 CAREER GROWTH OPPORTUNITIES
🎯 RECOMMENDATIONS FOR JOB SEEKERS
".

Definition no_industry_trends (job_category : pystr) : pystr :=
  py "No industry trends data available for " ++ job_category ++ py ".".

Definition get_industry_trends (job_category : pystr) : M pyval :=
  track (py "get_industry_trends") [PStr job_category]
    (let urls := get_industry_trends_urls job_category in
     try_except
       (raw_response <-
          extract urls (get_industry_trends_extract_prompt job_category)
            IndustryTrendsSchema ;;
        succeeded <-
          (if isinstance_dict raw_response
           then flag <- lift (method_get raw_response (py "success") PNone) ;;
                ret (truthy flag)
           else ret false) ;;
        if succeeded
        then data <- lift (getitem raw_response (Key (py "data"))) ;;
             industries <- lift (method_get data (py "industry_trends") (PList [])) ;;
             if negb (truthy industries)
             then ret (PStr (no_industry_trends job_category))
             else _generate_text (get_industry_trends_prompt job_category industries)
        else ret (PStr (no_industry_trends job_category)))
       (fun e =>
          ret (PStr (py "An error occurred while fetching industry trends: "
                     ++ exc_str e)))).

End Agent.

(* ===================================================================== *)
(** * Observations on a run *)
(* ===================================================================== *)

(** The prompts [_generate_text] was called with, oldest first. *)
Definition generation_prompts (tr : list event) : list pystr :=
  flat_map (fun ev =>
              match ev with
              | Tracked fn [PStr p] =>
                  if pystr_eqb fn (py "_generate_text") then [p] else []
              | _ => []
              end) tr.

(** The requests sent to the extraction provider. *)
Definition extraction_requests (tr : list event)
  : list (list pystr * pystr * schema) :=
  flat_map (fun ev =>
              match ev with
              | Extract _ urls prompt sch => [(urls, prompt, sch)]
              | _ => []
              end) tr.

(** The value of [raw_response.get('success')] for a [dict] response. *)
Definition success_flag (entries : list (pystr * pyval)) : pyval :=
  match lookup entries (py "success") with
  | Some flag => flag
  | None => PNone
  end.

(** The provider reports failure: a [dict] whose success flag is false
    (or absent). *)
Definition reports_failure (r : pyval) : Prop :=
  exists entries, r = PDict entries /\ truthy (success_flag entries) = false.

(** The provider reports success and its data mapping holds [records]
    under [key]. *)
Definition succeeds_with (key : pystr) (records : pyval) (r : pyval) : Prop :=
  exists entries payload,
    r = PDict entries
    /\ truthy (success_flag entries) = true
    /\ lookup entries (py "data") = Some (PDict payload)
    /\ lookup payload key = Some records.

(** The provider reports success and its data mapping has no entry [key]. *)
Definition succeeds_without (key : pystr) (r : pyval) : Prop :=
  exists entries payload,
    r = PDict entries
    /\ truthy (success_flag entries) = true
    /\ lookup entries (py "data") = Some (PDict payload)
    /\ lookup payload key = None.

(** Every answer of both services is a function of the request alone. *)
Definition deterministic (E : Env) : Prop :=
  (forall h h' key urls prompt sch,
      firecrawl_extract E h key urls prompt sch
      = firecrawl_extract E h' key urls prompt sch)
  /\ (forall h h' target headers payload,
         requests_post E h target headers payload
         = requests_post E h' target headers payload).

(** The normalized token of the specification: the words of the lowercased
    text between single spaces, joined by hyphens. *)
Definition hyphen_joined_tokens {U : UnicodeData} (text : pystr) : pystr :=
  join (py "-") (split_on 32 (lower text)).

Section Requests.

Context {U : UnicodeData}.
Variable E : Env.

(** The [raw_response] of [find_jobs] started in [st]: the provider's answer
    to the one extraction request the call sends. *)
Definition find_jobs_raw_response
    (job_title location : pystr) (experience_years : Z) (skills : list pystr)
    (st : state) : result pyval :=
  fst (extract E (find_jobs_urls job_title location)
         (find_jobs_extract_prompt job_title location experience_years
            (join (py ", ") skills))
         ExtractSchema
         (record (Tracked (py "find_jobs")
                    [PStr job_title; PStr location; PInt experience_years;
                     PList (map PStr skills)]) st)).

(** The [raw_response] of [get_industry_trends] started in [st]. *)
Definition get_industry_trends_raw_response
    (job_category : pystr) (st : state) : result pyval :=
  fst (extract E (get_industry_trends_urls job_category)
         (get_industry_trends_extract_prompt job_category)
         IndustryTrendsSchema
         (record (Tracked (py "get_industry_trends") [PStr job_category]) st)).

(** The answer to the one HTTP request [_generate_text prompt] sends when
    started in [st]. *)
Definition generate_text_response (prompt : pystr) (st : state) : result Response :=
  requests_post E
    (trace st ++ [Tracked (py "_generate_text") [PStr prompt]])
    (model_url (self st))
    [ (py "Authorization", py "Bearer " ++ hf_api_key (self st));
      (py "Content-Type", py "application/json") ]
    (PDict [ (py "inputs", PStr prompt);
             (py "parameters", PDict [ (py "max_new_tokens", PInt 800) ]) ]).

(** The state after the one HTTP request of [_generate_text]. *)
Definition after_generation (prompt : pystr) (st : state) : state :=
  record (Post (model_url (self st))
            [ (py "Authorization", py "Bearer " ++ hf_api_key (self st));
              (py "Content-Type", py "application/json") ]
            (PDict [ (py "inputs", PStr prompt);
                     (py "parameters", PDict [ (py "max_new_tokens", PInt 800) ]) ]))
         (record (Tracked (py "_generate_text") [PStr prompt]) st).

(** The state after the one extraction request of [find_jobs]. *)
Definition after_find_jobs_extraction
    (job_title location : pystr) (experience_years : Z) (skills : list pystr)
    (st : state) : state :=
  record (Extract (api_key (firecrawl (self st)))
            (find_jobs_urls job_title location)
            (find_jobs_extract_prompt job_title location experience_years
               (join (py ", ") skills))
            ExtractSchema)
         (record (Tracked (py "find_jobs")
                    [PStr job_title; PStr location; PInt experience_years;
                     PList (map PStr skills)]) st).

(** The state after the one extraction request of [get_industry_trends]. *)
Definition after_get_industry_trends_extraction
    (job_category : pystr) (st : state) : state :=
  record (Extract (api_key (firecrawl (self st)))
            (get_industry_trends_urls job_category)
            (get_industry_trends_extract_prompt job_category)
            IndustryTrendsSchema)
         (record (Tracked (py "get_industry_trends") [PStr job_category]) st).

End Requests.

(** ** The pure steps between the service calls *)

(** Lines 59-60 of [_generate_text] on a received response:
    [raise_for_status()], then [response.json()[0]['generated_text']]. *)
Definition generated_text_of {U : UnicodeData} (response : Response) : result pyval :=
  match raise_for_status response with
  | Raise e => Raise e
  | Return _ =>
      match response_json response with
      | Raise e => Raise e
      | Return body =>
          match getitem body (Index 0) with
          | Raise e => Raise e
          | Return first => getitem first (Key (py "generated_text"))
          end
      end
  end.

(** The records an operation reads out of [raw_response]: the entry [key]
    of its data mapping when it is a successful [dict], the empty list
    otherwise. *)
Definition records_of {U : UnicodeData} (key : pystr) (raw_response : pyval)
  : result pyval :=
  match raw_response with
  | PDict entries =>
      if truthy (success_flag entries)
      then match getitem raw_response (Key (py "data")) with
           | Raise e => Raise e
           | Return data => method_get data key (PList [])
           end
      else Return (PList [])
  | _ => Return (PList [])
  end.

(** ** Stub services and sample data *)

(** Tables for runs on ASCII text, where neither is consulted. *)
Definition ascii_only : UnicodeData :=
  {| unicode_lower := fun s => s; unicode_isprintable := fun _ => false |}.

(** A stub pair: the extraction always answers [extraction], the HTTP
    endpoint always answers [generation]. *)
Definition stub (extraction : result pyval) (generation : result Response) : Env :=
  {| firecrawl_extract := fun _ _ _ _ _ => extraction;
     requests_post := fun _ _ _ _ => generation |}.

Definition ok_response (body : pyval) : Response :=
  {| status_code := 200; reason := py "OK";
     url := py "https://api.example/model"; json_body := inr body |}.

(** The body of a well-formed generation response. *)
Definition generated (text : pystr) : pyval :=
  PList [ PDict [ (py "generated_text", PStr text) ] ].

(** A successful extraction response holding [records] under [key]. *)
Definition extraction_of (key : pystr) (records : list pyval) : pyval :=
  PDict [ (py "success", PBool true);
          (py "data", PDict [ (key, PList records) ]);
          (py "status", PStr (py "completed"));
          (py "expiresAt", PStr (py "2026-01-01T00:00:00.000Z")) ].

Definition failed_extraction : pyval :=
  PDict [ (py "success", PBool false); (py "data", PDict []);
          (py "status", PStr (py "failed"));
          (py "expiresAt", PStr (py "2026-01-01T00:00:00.000Z")) ].

Definition posting (title where_ : pystr) : DefineStructure :=
  {| region := Some where_; role := None; job_title := Some title;
     experience := None; job_link := None |}.

Definition sample_agent : JobSearchingAgent :=
  __init__ (py "fc-key") (py "hf-key") (py "https://api.example/model").

Definition fresh : state := {| self := sample_agent; trace := [] |}.

Definition two_postings : list pyval :=
  [ posting_dict (posting (py "Software Engineer") (py "New York"));
    posting_dict (posting (py "Data Analyst") (py "Pune")) ].

(** Two postings, the first with a backslash in its title. *)
Definition backslash_postings : list pyval :=
  [ posting_dict (posting (py "AI\ML Engineer") (py "Remote"));
    posting_dict (posting (py "Data Analyst") (py "Pune")) ].

(** A response object of an SDK that does not answer with a [dict]. *)
Definition sdk_response : pyval :=
  PObject {| obj_class := py "ExtractResponse";
             obj_repr := py "ExtractResponse(success=True, data={})" |}.

(** A generation service that is up and answers [text]. *)
Definition generation_ok (text : pystr) : result Response :=
  Return (ok_response (generated text)).

Definition response_with (status : Z) (why : pystr) (body : pystr + pyval)
  : Response :=
  {| status_code := status; reason := why;
     url := py "https://api.example/model"; json_body := body |}.

(** A service with memory: the extraction finds the two postings on the
    first request and reports failure on every later one. *)
Definition asked_before (h : list event) : bool :=
  existsb (fun ev => match ev with Extract _ _ _ _ => true | _ => false end) h.

Definition one_shot : Env :=
  {| firecrawl_extract := fun h _ _ _ _ =>
       if asked_before h then Return failed_extraction
       else Return (extraction_of (py "job_postings") two_postings);
     requests_post := fun _ _ _ _ => generation_ok (py "summary") |}.

Definition KeyboardInterrupt : pyexc :=
  {| exc_class := py "KeyboardInterrupt"; exc_is_Exception := false; exc_str := [] |}.

Definition ConnectionError : pyexc :=
  {| exc_class := py "ConnectionError"; exc_is_Exception := true;
     exc_str := py "connection refused" |}.

(* ===================================================================== *)
(** * The presentation layer *)
(* ===================================================================== *)

(** ** The skills field *)

(** The characters [str.strip()] removes: CPython's
    [_PyUnicode_IsWhitespace]. *)
Definition is_whitespace (c : N) : bool :=
  (((9 <=? c) && (c <=? 13)) || ((28 <=? c) && (c <=? 32))
   || (c =? 133) || (c =? 160) || (c =? 5760)
   || ((8192 <=? c) && (c <=? 8202))
   || (c =? 8232) || (c =? 8233) || (c =? 8239) || (c =? 8287)
   || (c =? 12288))%N.

Fixpoint drop_while (p : N -> bool) (s : pystr) : pystr :=
  match s with
  | [] => []
  | c :: t => if p c then drop_while p t else s
  end.

(** [s.strip()] *)
Definition strip (s : pystr) : pystr :=
  rev (drop_while is_whitespace (rev (drop_while is_whitespace s))).

(** [[s.strip() for s in skills_input.split(",") if s.strip()]] *)
Definition parse_skills (skills_input : pystr) : list pystr :=
  filter (fun s => truthy (PStr s)) (map strip (split_on 44 skills_input)).

(** ** Session state, widgets and page *)

(** [st.session_state], with the four keys the program uses; [None] is a
    key that is not set. *)
Module session_state.

Record t := {
  firecrawl_key : option pystr;
  hf_key : option pystr;
  model_url : option pystr;
  job_agent : option JobSearchingAgent
}.

Definition empty : t :=
  {| firecrawl_key := None; hf_key := None; model_url := None; job_agent := None |}.

End session_state.

(** What the input widgets of [main] return in one run of the script, named
    as the locals they are assigned to; [clicked] is the result of
    [st.button]. The environment variables read by [main] only pre-fill the
    three sidebar fields and do not appear. *)
Module widgets.

Record t := {
  model_url : pystr;
  hf_key : pystr;
  firecrawl_key : pystr;
  job_title : pystr;
  location : pystr;
  experience_years : Z;
  skills_input : pystr;
  job_category : pystr;
  clicked : bool
}.

End widgets.

(** What the display calls of [main] put on the page, in the order of the
    calls. A display call takes any value and does not raise. *)
Inductive element :=
| st_set_page_config (page_title page_icon layout : pystr)
| st_title (body : pystr)
| st_subheader (body : pystr)
| st_info (body : pystr)
| st_warning (body : pystr)
| st_error (body : pystr)
| st_success (body : pystr)
| st_markdown (body : pyval)
| st_divider
| st_spinner (text : pystr)
| st_expander (label : pystr).

(** The state of one browser session: the session state, the page as
    displayed so far, and the requests sent to the two services. *)
Record page := {
  session : session_state.t;
  shown : list element;
  sent : list event
}.

(** The wording of the [AttributeError] that [st.session_state.<name>]
    raises for a key that is not set is the framework's. *)
Class Streamlit := {
  missing_attribute_message : pystr -> pystr
}.

Definition UI (A : Type) : Type := page -> result A * page.

Definition ui_ret {A : Type} (a : A) : UI A := fun p => (Return a, p).

Definition ui_bind {A B : Type} (m : UI A) (k : A -> UI B) : UI B :=
  fun p =>
    match m p with
    | (Return a, p') => k a p'
    | (Raise e, p') => (Raise e, p')
    end.

Declare Scope ui_scope.
Delimit Scope ui_scope with UI.
Notation "x <- m ;; k" := (ui_bind m (fun x => k))
  (at level 61, m at next level, right associativity) : ui_scope.
Notation "m ;;; k" := (ui_bind m (fun _ => k))
  (at level 61, right associativity) : ui_scope.

(** [try: body / except Exception as e: handler e] in [main]. *)
Definition ui_try_except {A : Type} (body : UI A) (handler : pyexc -> UI A) : UI A :=
  fun p =>
    match body p with
    | (Return a, p') => (Return a, p')
    | (Raise e, p') =>
        if exc_is_Exception e then handler e p' else (Raise e, p')
    end.

(** A display call. *)
Definition show (el : element) : UI unit :=
  fun p =>
    (Return tt,
     {| session := session p; shown := shown p ++ [el]; sent := sent p |}).

Definition update_session (f : session_state.t -> session_state.t) : UI unit :=
  fun p =>
    (Return tt, {| session := f (session p); shown := shown p; sent := sent p |}).

(** ['job_agent' in st.session_state] *)
Definition has_job_agent : UI bool :=
  fun p =>
    (Return (match session_state.job_agent (session p) with
             | Some _ => true
             | None => false
             end), p).

Section Presentation.

Context {U : UnicodeData} {F : Streamlit}.
Variable E : Env.

Local Open Scope ui_scope.

(** [st.session_state.<name>] for one of the three text keys. *)
Definition session_attribute
    (name : pystr) (field : session_state.t -> option pystr) : UI pystr :=
  fun p =>
    match field (session p) with
    | Some v => (Return v, p)
    | None => (Raise (AttributeError (missing_attribute_message name)), p)
    end.

(** [st.session_state.job_agent.<method>(...)]: the method runs on the agent
    object held in the session, against the services. *)
Definition on_job_agent (method : M pyval) : UI pyval :=
  fun p =>
    match session_state.job_agent (session p) with
    | None => (Raise (AttributeError (missing_attribute_message (py "job_agent"))), p)
    | Some agent =>
        let (r, st) := method {| self := agent; trace := sent p |} in
        (r, {| session :=
                 {| session_state.firecrawl_key :=
                      session_state.firecrawl_key (session p);
                    session_state.hf_key := session_state.hf_key (session p);
                    session_state.model_url := session_state.model_url (session p);
                    session_state.job_agent := Some (self st) |};
               shown := shown p;
               sent := trace st |})
    end.

Definition job_agent_create : UI unit :=
  present <- has_job_agent ;;
  if negb present
  then
    firecrawl_api_key <-
      session_attribute (py "firecrawl_key") session_state.firecrawl_key ;;
    hf_api_key <- session_attribute (py "hf_key") session_state.hf_key ;;
    model_url <- session_attribute (py "model_url") session_state.model_url ;;
    update_session
      (fun s =>
         {| session_state.firecrawl_key := session_state.firecrawl_key s;
            session_state.hf_key := session_state.hf_key s;
            session_state.model_url := session_state.model_url s;
            session_state.job_agent :=
              Some (__init__ firecrawl_api_key hf_api_key model_url) |})
  else ui_ret tt.

Definition main (w : widgets.t) : UI unit :=
  show (st_set_page_config (py "AI Job Hunting Assistant") (py "💼") (py "wide")) ;;;
  show (st_title (py "🔑 API Configuration")) ;;;
  show (st_subheader (py "🤗 Hugging Face Settings")) ;;;
  (if truthy (PStr (widgets.firecrawl_key w)) && truthy (PStr (widgets.hf_key w))
      && truthy (PStr (widgets.model_url w))
   then
     update_session
       (fun s =>
          {| session_state.firecrawl_key := Some (widgets.firecrawl_key w);
             session_state.hf_key := Some (widgets.hf_key w);
             session_state.model_url := Some (widgets.model_url w);
             session_state.job_agent := session_state.job_agent s |}) ;;;
     job_agent_create
   else
     show (st_warning (py "⚠️ Please provide all required API keys and model URL."))) ;;;
  show (st_title (py "💼 AI Job Hunting Assistant")) ;;;
  show (st_info (py "Enter your job search criteria below to get job recommendations and industry insights.")) ;;;
  let skills := parse_skills (widgets.skills_input w) in
  if widgets.clicked w
  then
    present <- has_job_agent ;;
    if negb present
    then show (st_error (py "⚠️ Please enter your API keys in the sidebar first!"))
    else if negb (truthy (PStr (widgets.job_title w)))
            || negb (truthy (PStr (widgets.location w)))
    then show (st_error (py "⚠️ Please enter both job title and location!"))
    else
      (if negb (truthy (PList (map PStr skills)))
       then show (st_warning (py "⚠️ No skills provided. Adding skills will improve job matching."))
       else ui_ret tt) ;;;
      ui_try_except
        (show (st_spinner (py "🔍 Searching for jobs...")) ;;;
         job_results <-
           on_job_agent
             (find_jobs E (widgets.job_title w) (widgets.location w)
                (widgets.experience_years w) skills) ;;
         show (st_success (py "✅ Job search completed!")) ;;;
         show (st_subheader (py "💼 Job Recommendations")) ;;;
         show (st_markdown job_results) ;;;
         show st_divider ;;;
         show (st_spinner (py "📊 Analyzing industry trends...")) ;;;
         industry_trends <-
           on_job_agent (get_industry_trends E (widgets.job_category w)) ;;
         show (st_success (py "✅ Industry analysis completed!")) ;;;
         show (st_expander (py "📈 " ++ widgets.job_category w
                            ++ py " Industry Trends Analysis")) ;;;
         show (st_markdown industry_trends))
        (fun e => show (st_error (py "❌ An error occurred: " ++ exc_str e)))
  else ui_ret tt.

End Presentation.

(** [firecrawl_key and hf_key and model_url]: the three sidebar fields are
    all filled in. *)
Definition credentials_complete (w : widgets.t) : bool :=
  truthy (PStr (widgets.firecrawl_key w)) && truthy (PStr (widgets.hf_key w))
  && truthy (PStr (widgets.model_url w)).

(** The part of [main] before the button: what the page shows and what the
    session holds once the sidebar and the header have run. *)
Definition configured (w : widgets.t) (p : page) : page :=
  let complete := credentials_complete w in
  {| session :=
       if complete
       then {| session_state.firecrawl_key := Some (widgets.firecrawl_key w);
               session_state.hf_key := Some (widgets.hf_key w);
               session_state.model_url := Some (widgets.model_url w);
               session_state.job_agent :=
                 match session_state.job_agent (session p) with
                 | Some agent => Some agent
                 | None =>
                     Some (__init__ (widgets.firecrawl_key w) (widgets.hf_key w)
                             (widgets.model_url w))
                 end |}
       else session p;
     shown :=
       shown p
       ++ [ st_set_page_config (py "AI Job Hunting Assistant") (py "💼") (py "wide");
            st_title (py "🔑 API Configuration");
            st_subheader (py "🤗 Hugging Face Settings") ]
       ++ (if complete then []
           else [ st_warning (py "⚠️ Please provide all required API keys and model URL.") ])
       ++ [ st_title (py "💼 AI Job Hunting Assistant");
            st_info (py "Enter your job search criteria below to get job recommendations and industry insights.") ];
     sent := sent p |}.

Definition with_shown (els : list element) (p : page) : page :=
  {| session := session p; shown := shown p ++ els; sent := sent p |}.

(** The script is run again: the page starts empty, the session state and
    the history of the services stay. *)
Definition rerun (p : page) : page :=
  {| session := session p; shown := []; sent := sent p |}.

(** The state in which a method of the session's agent starts. *)
Definition agent_state (agent : JobSearchingAgent) (p : page) : state :=
  {| self := agent; trace := sent p |}.

(** A request that carries the credentials of [agent]: an extraction with
    its Firecrawl key, or a POST to its [model_url] with its Hugging Face key
    as bearer token. *)
Definition uses_credentials_of (agent : JobSearchingAgent) (ev : event) : Prop :=
  match ev with
  | Tracked _ _ => True
  | Extract key _ _ _ => key = api_key (firecrawl agent)
  | Post target headers _ =>
      target = model_url agent
      /\ headers = [ (py "Authorization", py "Bearer " ++ hf_api_key agent);
                     (py "Content-Type", py "application/json") ]
  end.

(** A framework instance for runs in which no absent key is read. *)
Definition any_wording : Streamlit :=
  {| missing_attribute_message := fun name => name |}.

Definition blank_page : page :=
  {| session := session_state.empty; shown := []; sent := [] |}.

(** One trend record as the provider returns it. *)
Definition sample_trends : list pyval :=
  [ trend_dict
      {| industry := Some (py "Data Science");
         avg_salary := Some {| float_is_zero := false; float_repr := py "120000.0" |};
         growth_rate := Some {| float_is_zero := false; float_repr := py "0.35" |};
         demand_level := Some (py "High");
         top_skills := Some [py "Python"; py "SQL"] |} ].

(** The stub pair of the runs below: two postings found, the model answers
    "summary". *)
Definition sample_env : Env :=
  stub (Return (extraction_of (py "job_postings") two_postings))
    (generation_ok (py "summary")).

(** The form filled in as its placeholders suggest, with credentials. *)
Definition sample_form (clicked : bool) : widgets.t :=
  {| widgets.model_url := py "https://api.example/model";
     widgets.hf_key := py "hf-key";
     widgets.firecrawl_key := py "fc-key";
     widgets.job_title := py "Software Engineer";
     widgets.location := py "New York";
     widgets.experience_years := 2;
     widgets.skills_input := py "Python, SQL, React";
     widgets.job_category := py "Data Science";
     widgets.clicked := clicked |}.

(** The same form after the user has typed other credentials. *)
Definition changed_form : widgets.t :=
  {| widgets.model_url := py "https://other.example/model";
     widgets.hf_key := py "other-hf-key";
     widgets.firecrawl_key := py "other-fc-key";
     widgets.job_title := py "Software Engineer";
     widgets.location := py "New York";
     widgets.experience_years := 2;
     widgets.skills_input := py "Python, SQL, React";
     widgets.job_category := py "Data Science";
     widgets.clicked := true |}.

(* ===================================================================== *)
(** * Properties of the text operations *)
(* ===================================================================== *)

Section TextFacts.

Context {U : UnicodeData}.

Lemma pystr_eqb_eq (a b : pystr) : pystr_eqb a b = true <-> a = b.
Proof.
  revert b; induction a as [|x a IH]; intros [|y b]; simpl; split;
    try congruence; intros H.
  - apply andb_prop in H as [Hx Hab].
    apply N.eqb_eq in Hx. apply IH in Hab. congruence.
  - injection H as -> ->. rewrite N.eqb_refl. now apply IH.
Qed.

Lemma pystr_eqb_refl (a : pystr) : pystr_eqb a a = true.
Proof. now apply pystr_eqb_eq. Qed.

Lemma starts_with_iff (p s : pystr) :
  starts_with p s = true <-> exists r, s = p ++ r.
Proof.
  revert s; induction p as [|a p IH]; intros s; simpl.
  - split; [intros _; now exists s | reflexivity].
  - destruct s as [|b s]; split.
    + discriminate.
    + intros [r Hr]; discriminate.
    + intros H. apply andb_prop in H as [Hab Hps].
      apply N.eqb_eq in Hab; subst b.
      apply IH in Hps as [r ->]. now exists r.
    + intros [r Hr]. injection Hr as -> ->.
      rewrite N.eqb_refl. apply IH. now exists r.
Qed.

Lemma substring_refl (s : pystr) : substring s s.
Proof. exists [], []. now rewrite app_nil_r. Qed.

Lemma substring_app_l (n a b : pystr) : substring n a -> substring n (a ++ b).
Proof.
  intros (pre & post & ->). exists pre, (post ++ b).
  now rewrite <- !app_assoc.
Qed.

Lemma substring_app_r (n a b : pystr) : substring n b -> substring n (a ++ b).
Proof.
  intros (pre & post & ->). exists (a ++ pre), post.
  now rewrite <- !app_assoc.
Qed.

Lemma substring_trans (a b c : pystr) :
  substring a b -> substring b c -> substring a c.
Proof.
  intros (p1 & q1 & ->) (p2 & q2 & ->).
  exists (p2 ++ p1), (q1 ++ q2). now rewrite <- !app_assoc.
Qed.

Lemma str_in_iff (needle hay : pystr) :
  str_in needle hay = true <-> substring needle hay.
Proof.
  induction hay as [|c t IH]; simpl.
  - rewrite orb_false_r. rewrite starts_with_iff. split.
    + intros [r Hr]. exists [], r. exact Hr.
    + intros (pre & post & H). destruct pre; [|discriminate].
      now exists post.
  - rewrite orb_true_iff, starts_with_iff, IH. split.
    + intros [[r Hr] | (pre & post & ->)].
      * exists [], r. exact Hr.
      * now exists (c :: pre), post.
    + intros (pre & post & H). destruct pre as [|c' pre].
      * left. now exists post.
      * right. injection H as _ ->. now exists pre, post.
Qed.

Lemma str_in_false (needle hay : pystr) :
  str_in needle hay = false -> ~ substring needle hay.
Proof. intros H S. apply str_in_iff in S. congruence. Qed.

(** Replacing a one-character pattern rewrites the text character by
    character. *)
Lemma replace_char (s : pystr) (a : N) (new : pystr) :
  replace s [a] new = flat_map (fun c => if (c =? a)%N then new else [c]) s.
Proof.
  unfold replace. induction s as [|c t IH]; [reflexivity|].
  cbn [replace_from starts_with flat_map length Nat.sub].
  rewrite andb_true_r, N.eqb_sym. destruct (c =? a)%N; now rewrite IH.
Qed.

Lemma replace_char_char (s : pystr) (a b : N) :
  replace s [a] [b] = map (fun c => if (c =? a)%N then b else c) s.
Proof.
  rewrite replace_char. induction s as [|c t IH]; [reflexivity|].
  simpl. rewrite IH. now destruct (c =? a)%N.
Qed.

Lemma split_on_nonempty (sep : N) (s : pystr) : split_on sep s <> [].
Proof.
  destruct s as [|c t]; simpl; [discriminate|].
  destruct (c =? sep)%N; [discriminate|].
  destruct (split_on sep t); discriminate.
Qed.

Lemma join_cons (sep p : pystr) (rest : list pystr) :
  rest <> [] -> join sep (p :: rest) = p ++ sep ++ join sep rest.
Proof. destruct rest; [congruence | reflexivity]. Qed.

(** Splitting on a character and joining with another is the replacement of
    the one by the other. *)
Lemma join_split_on (sep new : N) (s : pystr) :
  join [new] (split_on sep s) = replace s [sep] [new].
Proof.
  rewrite replace_char_char.
  induction s as [|c t IH]; [reflexivity|].
  cbn [split_on map]. destruct (c =? sep)%N.
  - rewrite join_cons by apply split_on_nonempty. now rewrite IH.
  - pose proof (split_on_nonempty sep t) as Hne.
    destruct (split_on sep t) as [|w ws]; [congruence|].
    rewrite <- IH. destruct ws; reflexivity.
Qed.

Lemma substring_join (sep x : pystr) (parts : list pystr) :
  In x parts -> substring x (join sep parts).
Proof.
  induction parts as [|p rest IH]; [intros []|].
  intros [-> | Hin].
  - destruct rest; [apply substring_refl|].
    apply substring_app_l, substring_refl.
  - destruct rest as [|q rest]; [destruct Hin|].
    change (substring x (p ++ sep ++ join sep (q :: rest))).
    now apply substring_app_r, substring_app_r, IH.
Qed.

(** ** [repr] *)

Lemma kept_by_repr_escape (q c : N) :
  kept_by_repr q c = true -> escape_char q c = [c].
Proof.
  unfold kept_by_repr, escape_char. intros H.
  repeat (apply andb_prop in H as [H ?]).
  repeat match goal with
         | K : negb _ = true |- _ => apply negb_true_iff in K
         end.
  match goal with K : (32 <=? c)%N = true |- _ => apply N.leb_le in K end.
  replace (c =? q)%N with false by (symmetry; assumption).
  replace (c =? 92)%N with false by (symmetry; assumption).
  replace (c =? 127)%N with false by (symmetry; assumption).
  replace (c =? 9)%N with false by (symmetry; apply N.eqb_neq; lia).
  replace (c =? 10)%N with false by (symmetry; apply N.eqb_neq; lia).
  replace (c =? 13)%N with false by (symmetry; apply N.eqb_neq; lia).
  replace (c <? 32)%N with false by (symmetry; apply N.ltb_ge; lia).
  cbn [orb]. destruct (c <? 127)%N; [reflexivity|].
  match goal with K : (false || _) = true |- _ => cbn [orb] in K; now rewrite K end.
Qed.

Lemma str_repr_verbatim (s : pystr) :
  repr_verbatim s = true -> str_repr s = [repr_quote s] ++ s ++ [repr_quote s].
Proof.
  unfold repr_verbatim, str_repr. generalize (repr_quote s) as q. intros q H.
  cbv zeta. do 2 f_equal.
  induction s as [|c t IH]; [reflexivity|].
  simpl in H. apply andb_prop in H as [Hc Ht].
  cbn [flat_map]. rewrite (kept_by_repr_escape _ _ Hc), (IH Ht). reflexivity.
Qed.

Lemma lookup_In (entries : list (pystr * pyval)) (k : pystr) (v : pyval) :
  lookup entries k = Some v -> In (k, v) entries.
Proof.
  induction entries as [|[k' v'] rest IH]; [discriminate|].
  simpl. destruct (pystr_eqb k' k) eqn:Hk.
  - intros [= ->]. apply pystr_eqb_eq in Hk. left. now subst.
  - intros H. right. now apply IH.
Qed.

Lemma repr_list_member (items : list pyval) (v : pyval) :
  In v items -> substring (repr v) (repr (PList items)).
Proof.
  intros Hin. cbn [repr].
  apply substring_app_r, substring_app_l, substring_join.
  now apply in_map.
Qed.

Lemma repr_dict_value (entries : list (pystr * pyval)) (k : pystr) (v : pyval) :
  In (k, v) entries -> substring (repr v) (repr (PDict entries)).
Proof.
  intros Hin. cbn [repr].
  apply substring_app_r, substring_app_l.
  eapply substring_trans;
    [| apply substring_join;
       apply (in_map (fun kv => str_repr (fst kv) ++ py ": " ++ repr (snd kv)) _ _ Hin)].
  cbn [fst snd]. apply substring_app_r, substring_app_r, substring_refl.
Qed.

Lemma repr_str_verbatim (s : pystr) :
  repr_verbatim s = true -> substring s (repr (PStr s)).
Proof.
  intros H. cbn [repr]. rewrite (str_repr_verbatim _ H).
  apply substring_app_r, substring_app_l, substring_refl.
Qed.

End TextFacts.

(* ===================================================================== *)
(** * How the three methods run *)
(* ===================================================================== *)

Section RunFacts.

Context {U : UnicodeData}.
Variable E : Env.

(** No built-in operation of the program raises anything but an
    [Exception]. *)
Lemma method_get_raises (v : pyval) (k : pystr) (d : pyval) (e : pyexc) :
  method_get v k d = Raise e -> exc_is_Exception e = true.
Proof.
  destruct v; simpl; try (intros [= <-]; reflexivity).
  destruct (lookup entries k); discriminate.
Qed.

Lemma getitem_raises (v : pyval) (sub : subscript) (e : pyexc) :
  getitem v sub = Raise e -> exc_is_Exception e = true.
Proof.
  destruct v, sub; simpl; try (intros [= <-]; reflexivity).
  - destruct (seq_index s i); [discriminate | intros [= <-]; reflexivity].
  - destruct (seq_index items i); [discriminate | intros [= <-]; reflexivity].
  - destruct (lookup entries k); [discriminate | intros [= <-]; reflexivity].
Qed.

Lemma raise_for_status_raises (r : Response) (e : pyexc) :
  raise_for_status r = Raise e -> exc_is_Exception e = true.
Proof.
  unfold raise_for_status.
  destruct (_ && _)%bool; [intros [= <-]; reflexivity|].
  destruct (_ && _)%bool; [intros [= <-]; reflexivity | discriminate].
Qed.

Lemma generated_text_of_raises (r : Response) (e : pyexc) :
  generated_text_of r = Raise e -> exc_is_Exception e = true.
Proof.
  unfold generated_text_of.
  destruct (raise_for_status r) eqn:H1;
    [| intros [= <-]; eapply raise_for_status_raises; eassumption].
  unfold response_json. destruct (json_body r) as [msg | body];
    [intros [= <-]; reflexivity|].
  destruct (getitem body (Index 0)) eqn:H3;
    [| intros [= <-]; eapply getitem_raises; eassumption].
  apply getitem_raises.
Qed.

Lemma records_of_raises (key : pystr) (r : pyval) (e : pyexc) :
  records_of key r = Raise e -> exc_is_Exception e = true.
Proof.
  unfold records_of. destruct r; try discriminate.
  destruct (truthy (success_flag entries)); [|discriminate].
  destruct (getitem _ _) eqn:H1;
    [| intros [= <-]; eapply getitem_raises; eassumption].
  apply method_get_raises.
Qed.


Lemma generate_text_run (prompt : pystr) (st : state) :
  _generate_text E prompt st =
  match generate_text_response E prompt st with
  | Raise e =>
      if exc_is_Exception e
      then (Return (PStr (py "Error generating text: " ++ exc_str e)),
            after_generation prompt st)
      else (Raise e, after_generation prompt st)
  | Return response =>
      match generated_text_of response with
      | Return text => (Return text, after_generation prompt st)
      | Raise e =>
          (Return (PStr (py "Error generating text: " ++ exc_str e)),
           after_generation prompt st)
      end
  end.
Proof.
  unfold _generate_text, track, bind, get_self, try_except, post,
    generate_text_response, after_generation, lift, ret.
  cbn [self trace record].
  destruct (requests_post E _ _ _ _) as [response | e]; [|reflexivity].
  pose proof (generated_text_of_raises response) as Hexc.
  unfold generated_text_of in *.
  destruct (raise_for_status response) as [[] | e1].
  2:{ now rewrite (Hexc e1 eq_refl). }
  destruct (response_json response) as [body | e2].
  2:{ now rewrite (Hexc e2 eq_refl). }
  destruct (getitem body (Index 0)) as [first | e3].
  2:{ now rewrite (Hexc e3 eq_refl). }
  destruct (getitem first (Key (py "generated_text"))) as [text | e4];
    [reflexivity|].
  now rewrite (Hexc e4 eq_refl).
Qed.

(** Whatever escapes [_generate_text] is not an [Exception]. *)
Lemma generate_text_escape (prompt : pystr) (st : state) (e : pyexc) :
  fst (_generate_text E prompt st) = Raise e -> exc_is_Exception e = false.
Proof.
  rewrite generate_text_run.
  destruct (generate_text_response E prompt st) as [response | e'].
  - destruct (generated_text_of response); discriminate.
  - destruct (exc_is_Exception e') eqn:He; [discriminate|].
    cbn [fst]. now intros [= <-].
Qed.

Lemma generate_text_state (prompt : pystr) (st : state) :
  snd (_generate_text E prompt st) = after_generation prompt st.
Proof.
  rewrite generate_text_run.
  destruct (generate_text_response E prompt st) as [response | e].
  - now destruct (generated_text_of response).
  - now destruct (exc_is_Exception e).
Qed.

(** A handler around [_generate_text] never runs. *)
Lemma try_except_generate_text (prompt : pystr) (handler : pyexc -> M pyval)
    (st : state) :
  try_except (_generate_text E prompt) handler st = _generate_text E prompt st.
Proof.
  unfold try_except.
  pose proof (generate_text_escape prompt st) as Hesc.
  destruct (_generate_text E prompt st) as [[v | e] st']; [reflexivity|].
  now rewrite (Hesc e eq_refl).
Qed.


Lemma find_jobs_run (job_title location : pystr) (experience_years : Z)
    (skills : list pystr) (st : state) :
  find_jobs E job_title location experience_years skills st =
  let st' := after_find_jobs_extraction job_title location experience_years skills st in
  match find_jobs_raw_response E job_title location experience_years skills st with
  | Raise e =>
      if exc_is_Exception e
      then (Return (PStr (py "An error occurred while searching for jobs: "
                          ++ exc_str e)), st')
      else (Raise e, st')
  | Return raw_response =>
      match records_of (py "job_postings") raw_response with
      | Raise e =>
          (Return (PStr (py "An error occurred while searching for jobs: "
                         ++ exc_str e)), st')
      | Return jobs =>
          if truthy jobs
          then _generate_text E (find_jobs_prompt jobs) st'
          else (Return (PStr no_job_listings), st')
      end
  end.
Proof.
  cbv zeta.
  unfold find_jobs, find_jobs_raw_response, after_find_jobs_extraction.
  unfold track at 1. unfold try_except at 1. unfold bind at 1.
  unfold extract. cbn [fst snd self trace record].
  destruct (firecrawl_extract E _ _ _ _ _) as [raw | e]; [|reflexivity].
  pose proof (records_of_raises (py "job_postings") raw) as Hexc.
  unfold records_of in *.
  destruct raw; cbn [isinstance_dict];
    try (unfold bind, ret; cbn [truthy negb]; reflexivity).
  unfold bind at 1. unfold bind at 1. unfold lift at 1.
  cbn [method_get]. fold (success_flag entries).
  assert (Hflag :
    match lookup entries (py "success") with
    | Some x => Return x | None => Return PNone end = Return (success_flag entries)).
  { unfold success_flag. now destruct (lookup entries (py "success")). }
  rewrite Hflag. unfold ret at 1.
  destruct (truthy (success_flag entries)).
  2:{ unfold bind, ret. cbn [truthy negb]. reflexivity. }
  unfold bind at 1. unfold bind at 1. unfold lift at 1.
  destruct (getitem (PDict entries) (Key (py "data"))) as [data | e1].
  2:{ now rewrite (Hexc e1 eq_refl). }
  unfold lift at 1.
  destruct (method_get data (py "job_postings") (PList [])) as [jobs | e2].
  2:{ now rewrite (Hexc e2 eq_refl). }
  destruct (truthy jobs); cbn [negb].
  - pose proof (try_except_generate_text (find_jobs_prompt jobs)) as Htry.
    unfold try_except in Htry. apply Htry.
  - reflexivity.
Qed.
Lemma get_industry_trends_run (job_category : pystr) (st : state) :
  get_industry_trends E job_category st =
  let st' := after_get_industry_trends_extraction job_category st in
  match get_industry_trends_raw_response E job_category st with
  | Raise e =>
      if exc_is_Exception e
      then (Return (PStr (py "An error occurred while fetching industry trends: "
                          ++ exc_str e)), st')
      else (Raise e, st')
  | Return raw_response =>
      match records_of (py "industry_trends") raw_response with
      | Raise e =>
          (Return (PStr (py "An error occurred while fetching industry trends: "
                         ++ exc_str e)), st')
      | Return industries =>
          if truthy industries
          then _generate_text E (get_industry_trends_prompt job_category industries) st'
          else (Return (PStr (no_industry_trends job_category)), st')
      end
  end.
Proof.
  cbv zeta.
  unfold get_industry_trends, get_industry_trends_raw_response,
    after_get_industry_trends_extraction.
  unfold track at 1. unfold try_except at 1. unfold bind at 1.
  unfold extract. cbn [fst snd self trace record].
  destruct (firecrawl_extract E _ _ _ _ _) as [raw | e]; [|reflexivity].
  pose proof (records_of_raises (py "industry_trends") raw) as Hexc.
  unfold records_of in *.
  destruct raw; cbn [isinstance_dict];
    try (unfold bind, ret; cbn [truthy negb]; reflexivity).
  unfold bind at 1. unfold bind at 1. unfold lift at 1.
  cbn [method_get].
  assert (Hflag :
    match lookup entries (py "success") with
    | Some x => Return x | None => Return PNone end = Return (success_flag entries)).
  { unfold success_flag. now destruct (lookup entries (py "success")). }
  rewrite Hflag. unfold ret at 1.
  destruct (truthy (success_flag entries)); [|reflexivity].
  unfold bind at 1. unfold lift at 1.
  destruct (getitem (PDict entries) (Key (py "data"))) as [data | e1].
  2:{ now rewrite (Hexc e1 eq_refl). }
  unfold bind at 1. unfold lift at 1.
  destruct (method_get data (py "industry_trends") (PList [])) as [industries | e2].
  2:{ now rewrite (Hexc e2 eq_refl). }
  destruct (truthy industries); cbn [negb].
  - pose proof (try_except_generate_text
                  (get_industry_trends_prompt job_category industries)) as Htry.
    unfold try_except in Htry. apply Htry.
  - reflexivity.
Qed.

End RunFacts.

(* ===================================================================== *)
(** * What a run leaves in the trace *)
(* ===================================================================== *)

Section TraceFacts.

Context {U : UnicodeData}.
Variable E : Env.

Lemma generation_prompts_app (a b : list event) :
  generation_prompts (a ++ b) = generation_prompts a ++ generation_prompts b.
Proof. apply flat_map_app. Qed.

Lemma extraction_requests_app (a b : list event) :
  extraction_requests (a ++ b) = extraction_requests a ++ extraction_requests b.
Proof. apply flat_map_app. Qed.

Lemma after_generation_prompts (prompt : pystr) (st : state) :
  generation_prompts (trace (after_generation prompt st))
  = generation_prompts (trace st) ++ [prompt].
Proof.
  unfold after_generation, record. cbn [trace self].
  rewrite <- app_assoc, generation_prompts_app. reflexivity.
Qed.

Lemma after_generation_requests (prompt : pystr) (st : state) :
  extraction_requests (trace (after_generation prompt st))
  = extraction_requests (trace st).
Proof.
  unfold after_generation, record. cbn [trace self].
  rewrite <- app_assoc, extraction_requests_app. cbn. apply app_nil_r.
Qed.

Lemma after_find_jobs_extraction_prompts jt loc exp skills (st : state) :
  generation_prompts (trace (after_find_jobs_extraction jt loc exp skills st))
  = generation_prompts (trace st).
Proof.
  unfold after_find_jobs_extraction, record. cbn [trace self].
  rewrite <- app_assoc, generation_prompts_app. cbn. apply app_nil_r.
Qed.

Lemma after_find_jobs_extraction_requests jt loc exp skills (st : state) :
  extraction_requests (trace (after_find_jobs_extraction jt loc exp skills st))
  = extraction_requests (trace st)
    ++ [(find_jobs_urls jt loc,
         find_jobs_extract_prompt jt loc exp (join (py ", ") skills),
         ExtractSchema)].
Proof.
  unfold after_find_jobs_extraction, record. cbn [trace self].
  rewrite <- app_assoc, extraction_requests_app. reflexivity.
Qed.

Lemma after_get_industry_trends_extraction_prompts cat (st : state) :
  generation_prompts (trace (after_get_industry_trends_extraction cat st))
  = generation_prompts (trace st).
Proof.
  unfold after_get_industry_trends_extraction, record. cbn [trace self].
  rewrite <- app_assoc, generation_prompts_app.
  rewrite <- (app_nil_r (generation_prompts (trace st))) at 2.
  apply f_equal. vm_compute. reflexivity.
Qed.

Lemma after_get_industry_trends_extraction_requests cat (st : state) :
  extraction_requests (trace (after_get_industry_trends_extraction cat st))
  = extraction_requests (trace st)
    ++ [(get_industry_trends_urls cat, get_industry_trends_extract_prompt cat,
         IndustryTrendsSchema)].
Proof.
  unfold after_get_industry_trends_extraction, record. cbn [trace self].
  rewrite <- app_assoc, extraction_requests_app. reflexivity.
Qed.

(** ** Reading the records out of a response *)

Lemma records_of_failure (key : pystr) (r : pyval) :
  reports_failure r -> records_of key r = Return (PList []).
Proof. intros (entries & -> & Hflag). unfold records_of. now rewrite Hflag. Qed.

Lemma records_of_not_dict (key : pystr) (r : pyval) :
  isinstance_dict r = false -> records_of key r = Return (PList []).
Proof. destruct r; simpl; congruence. Qed.

Lemma records_of_success (key : pystr) (records r : pyval) :
  succeeds_with key records r -> records_of key r = Return records.
Proof.
  intros (entries & payload & -> & Hflag & Hdata & Hkey).
  unfold records_of. rewrite Hflag. cbn [getitem]. rewrite Hdata.
  cbn [method_get]. now rewrite Hkey.
Qed.

Lemma records_of_missing (key : pystr) (r : pyval) :
  succeeds_without key r -> records_of key r = Return (PList []).
Proof.
  intros (entries & payload & -> & Hflag & Hdata & Hkey).
  unfold records_of. rewrite Hflag. cbn [getitem]. rewrite Hdata.
  cbn [method_get]. now rewrite Hkey.
Qed.

(** ** The two outcomes of each operation on a received response *)

Lemma find_jobs_no_records jt loc exp skills (st : state) (r v : pyval) :
  find_jobs_raw_response E jt loc exp skills st = Return r ->
  records_of (py "job_postings") r = Return v ->
  truthy v = false ->
  find_jobs E jt loc exp skills st
  = (Return (PStr no_job_listings), after_find_jobs_extraction jt loc exp skills st).
Proof.
  intros Hraw Hrec Hv. rewrite find_jobs_run. cbv zeta.
  now rewrite Hraw, Hrec, Hv.
Qed.

Lemma find_jobs_with_records jt loc exp skills (st : state) (r jobs : pyval) :
  find_jobs_raw_response E jt loc exp skills st = Return r ->
  records_of (py "job_postings") r = Return jobs ->
  truthy jobs = true ->
  find_jobs E jt loc exp skills st
  = _generate_text E (find_jobs_prompt jobs)
      (after_find_jobs_extraction jt loc exp skills st).
Proof.
  intros Hraw Hrec Hv. rewrite find_jobs_run. cbv zeta.
  now rewrite Hraw, Hrec, Hv.
Qed.

Lemma get_industry_trends_no_records cat (st : state) (r v : pyval) :
  get_industry_trends_raw_response E cat st = Return r ->
  records_of (py "industry_trends") r = Return v ->
  truthy v = false ->
  get_industry_trends E cat st
  = (Return (PStr (no_industry_trends cat)),
     after_get_industry_trends_extraction cat st).
Proof.
  intros Hraw Hrec Hv. rewrite get_industry_trends_run. cbv zeta.
  now rewrite Hraw, Hrec, Hv.
Qed.

(** The state an operation ends in: the extraction request is always sent,
    the generation request at most once after it. *)
Lemma find_jobs_state jt loc exp skills (st : state) :
  let st' := after_find_jobs_extraction jt loc exp skills st in
  snd (find_jobs E jt loc exp skills st) = st'
  \/ exists jobs,
      snd (find_jobs E jt loc exp skills st)
      = after_generation (find_jobs_prompt jobs) st'.
Proof.
  cbv zeta. rewrite find_jobs_run. cbv zeta.
  destruct (find_jobs_raw_response E jt loc exp skills st) as [r | e].
  - destruct (records_of (py "job_postings") r) as [jobs | e]; [|now left].
    destruct (truthy jobs); [|now left].
    right. exists jobs. apply generate_text_state.
  - left. now destruct (exc_is_Exception e).
Qed.

Lemma get_industry_trends_state cat (st : state) :
  let st' := after_get_industry_trends_extraction cat st in
  snd (get_industry_trends E cat st) = st'
  \/ exists industries,
      snd (get_industry_trends E cat st)
      = after_generation (get_industry_trends_prompt cat industries) st'.
Proof.
  cbv zeta. rewrite get_industry_trends_run. cbv zeta.
  destruct (get_industry_trends_raw_response E cat st) as [r | e].
  - destruct (records_of (py "industry_trends") r) as [v | e]; [|now left].
    destruct (truthy v); [|now left].
    right. exists v. apply generate_text_state.
  - left. now destruct (exc_is_Exception e).
Qed.

End TraceFacts.

(* ===================================================================== *)
(** * Empty and failed extractions *)
(* ===================================================================== *)

Section NoResults.

Context {U : UnicodeData}.

(** C1. When the extraction provider reports failure, or reports success
    with an empty list of records, [find_jobs] returns "No job listings found
    matching your criteria." and [get_industry_trends] returns "No industry
    trends data available for <category>."; in both cases [_generate_text]
    is not called. *)
Theorem no_results_skip_generation (E : Env) :
  (forall job_title location experience_years skills st r,
      find_jobs_raw_response E job_title location experience_years skills st
      = Return r ->
      reports_failure r \/ succeeds_with (py "job_postings") (PList []) r ->
      let run := find_jobs E job_title location experience_years skills st in
      fst run = Return (PStr (py "No job listings found matching your criteria."))
      /\ generation_prompts (trace (snd run)) = generation_prompts (trace st))
  /\ (forall job_category st r,
         get_industry_trends_raw_response E job_category st = Return r ->
         reports_failure r \/ succeeds_with (py "industry_trends") (PList []) r ->
         let run := get_industry_trends E job_category st in
         fst run = Return (PStr (py "No industry trends data available for "
                                 ++ job_category ++ py "."))
         /\ generation_prompts (trace (snd run)) = generation_prompts (trace st)).
Proof.
  split.
  - intros jt loc exp skills st r Hraw Hcase run.
    assert (Hrec : records_of (py "job_postings") r = Return (PList [])).
    { destruct Hcase as [Hfail | Hzero];
        [now apply records_of_failure | now apply records_of_success]. }
    subst run. rewrite (find_jobs_no_records E _ _ _ _ _ Hraw Hrec eq_refl).
    split; [reflexivity | apply after_find_jobs_extraction_prompts].
  - intros cat st r Hraw Hcase run.
    assert (Hrec : records_of (py "industry_trends") r = Return (PList [])).
    { destruct Hcase as [Hfail | Hzero];
        [now apply records_of_failure | now apply records_of_success]. }
    subst run. rewrite (get_industry_trends_no_records E _ _ Hraw Hrec eq_refl).
    split; [reflexivity | apply after_get_industry_trends_extraction_prompts].
Qed.

(** C5. [get_industry_trends] gives the same fixed message whether the
    provider reports success with an empty list or reports failure, and calls
    [_generate_text] in neither case; for the category "Data Science" the
    message is exactly "No industry trends data available for Data Science.". *)
Theorem trends_empty_and_failed_alike
    (E1 E2 : Env) (job_category : pystr) (st1 st2 : state) (r1 r2 : pyval) :
  get_industry_trends_raw_response E1 job_category st1 = Return r1 ->
  succeeds_with (py "industry_trends") (PList []) r1 ->
  get_industry_trends_raw_response E2 job_category st2 = Return r2 ->
  reports_failure r2 ->
  let empty := get_industry_trends E1 job_category st1 in
  let failed := get_industry_trends E2 job_category st2 in
  fst empty = fst failed
  /\ fst empty = Return (PStr (py "No industry trends data available for "
                               ++ job_category ++ py "."))
  /\ (job_category = py "Data Science" ->
      fst empty
      = Return (PStr (py "No industry trends data available for Data Science.")))
  /\ generation_prompts (trace (snd empty)) = generation_prompts (trace st1)
  /\ generation_prompts (trace (snd failed)) = generation_prompts (trace st2).
Proof.
  intros Hraw1 Hzero Hraw2 Hfail empty failed. subst empty failed.
  rewrite (get_industry_trends_no_records E1 _ _ Hraw1
             (records_of_success Hzero) eq_refl).
  rewrite (get_industry_trends_no_records E2 _ _ Hraw2
             (records_of_failure _ Hfail) eq_refl).
  cbn [fst snd]. repeat split.
  - intros ->. reflexivity.
  - apply after_get_industry_trends_extraction_prompts.
  - apply after_get_industry_trends_extraction_prompts.
Qed.

(** C9. A response that is not a [dict], or a successful [dict] whose data
    mapping has no entry under the expected key, is treated as zero records:
    the fixed no-results message is returned and [_generate_text] is not
    called. *)
Theorem malformed_response_is_no_results (E : Env) :
  (forall job_title location experience_years skills st r,
      find_jobs_raw_response E job_title location experience_years skills st
      = Return r ->
      isinstance_dict r = false \/ succeeds_without (py "job_postings") r ->
      let run := find_jobs E job_title location experience_years skills st in
      fst run = Return (PStr (py "No job listings found matching your criteria."))
      /\ generation_prompts (trace (snd run)) = generation_prompts (trace st))
  /\ (forall job_category st r,
         get_industry_trends_raw_response E job_category st = Return r ->
         isinstance_dict r = false \/ succeeds_without (py "industry_trends") r ->
         let run := get_industry_trends E job_category st in
         fst run = Return (PStr (py "No industry trends data available for "
                                 ++ job_category ++ py "."))
         /\ generation_prompts (trace (snd run)) = generation_prompts (trace st)).
Proof.
  split.
  - intros jt loc exp skills st r Hraw Hcase run.
    assert (Hrec : records_of (py "job_postings") r = Return (PList [])).
    { destruct Hcase as [Hnd | Hmiss];
        [now apply records_of_not_dict | now apply records_of_missing]. }
    subst run. rewrite (find_jobs_no_records E _ _ _ _ _ Hraw Hrec eq_refl).
    split; [reflexivity | apply after_find_jobs_extraction_prompts].
  - intros cat st r Hraw Hcase run.
    assert (Hrec : records_of (py "industry_trends") r = Return (PList [])).
    { destruct Hcase as [Hnd | Hmiss];
        [now apply records_of_not_dict | now apply records_of_missing]. }
    subst run. rewrite (get_industry_trends_no_records E _ _ Hraw Hrec eq_refl).
    split; [reflexivity | apply after_get_industry_trends_extraction_prompts].
Qed.

End NoResults.

(* ===================================================================== *)
(** * Prompts and URLs *)
(* ===================================================================== *)

Section Prompts.

Context {U : UnicodeData}.

Lemma find_jobs_prompt_embeds (jobs : pyval) :
  substring (str_of jobs) (find_jobs_prompt jobs).
Proof.
  unfold find_jobs_prompt. apply substring_app_r, substring_app_l, substring_refl.
Qed.

(** C2, as the code has it. When the provider reports success with a
    non-empty list of postings, [find_jobs] calls [_generate_text] exactly
    once, on the summarization prompt that embeds [str(jobs)], and its result
    is that call's result, unchanged. Inside the prompt the postings are
    printed by [repr]: a posting's [job_title] is found there character for
    character when [repr] escapes none of its characters (no backslash, no
    control or unprintable character, and not both kinds of quote). *)
Theorem postings_are_summarized
    (E : Env) (job_title location : pystr) (experience_years : Z)
    (skills : list pystr) (st : state) (r jobs : pyval) :
  find_jobs_raw_response E job_title location experience_years skills st
  = Return r ->
  succeeds_with (py "job_postings") jobs r ->
  truthy jobs = true ->
  let run := find_jobs E job_title location experience_years skills st in
  let prompt := find_jobs_prompt jobs in
  run = _generate_text E prompt
          (after_find_jobs_extraction job_title location experience_years skills st)
  /\ generation_prompts (trace (snd run)) = generation_prompts (trace st) ++ [prompt]
  /\ substring (str_of jobs) prompt
  /\ (forall items fields title,
         jobs = PList items ->
         In (PDict fields) items ->
         lookup fields (py "job_title") = Some (PStr title) ->
         repr_verbatim title = true ->
         substring title prompt).
Proof.
  intros Hraw Hok Hjobs run prompt. subst run prompt.
  rewrite (find_jobs_with_records E _ _ _ _ _ Hraw (records_of_success Hok) Hjobs).
  split; [reflexivity|]. split; [|split].
  - rewrite generate_text_state, after_generation_prompts.
    now rewrite after_find_jobs_extraction_prompts.
  - apply find_jobs_prompt_embeds.
  - intros items fields title -> Hin Hlook Hplain.
    eapply substring_trans; [| apply find_jobs_prompt_embeds].
    cbn [str_of].
    eapply substring_trans; [| apply repr_list_member; exact Hin].
    eapply substring_trans;
      [| apply repr_dict_value with (k := py "job_title");
         apply lookup_In; exact Hlook].
    now apply repr_str_verbatim.
Qed.

(** C7, as the code has it. The joined skills are embedded in the prompt of
    the extraction request, which is the only place [skills] goes: for
    ["Python", "SQL"] that prompt contains "Python, SQL". *)
Theorem skills_are_in_the_extraction_prompt
    (E : Env) (job_title location : pystr) (experience_years : Z)
    (skills : list pystr) (st : state) :
  exists urls prompt,
    extraction_requests
      (trace (snd (find_jobs E job_title location experience_years skills st)))
    = extraction_requests (trace st) ++ [(urls, prompt, ExtractSchema)]
    /\ substring (join (py ", ") skills) prompt
    /\ join (py ", ") [py "Python"; py "SQL"] = py "Python, SQL".
Proof.
  exists (find_jobs_urls job_title location),
    (find_jobs_extract_prompt job_title location experience_years
       (join (py ", ") skills)).
  split; [|split].
  - destruct (find_jobs_state E job_title location experience_years skills st)
      as [-> | [jobs ->]].
    + apply after_find_jobs_extraction_requests.
    + rewrite after_generation_requests.
      apply after_find_jobs_extraction_requests.
  - unfold find_jobs_extract_prompt.
    do 7 apply substring_app_r. apply substring_app_l, substring_refl.
  - reflexivity.
Qed.

(** C6. [find_jobs] builds exactly three listing URLs, and the lowercase,
    hyphen-joined tokens of the title and of the location, such as
    "software-engineer" and "new-york" for "Software Engineer" and
    "New York", occur in each of them; these are the URLs of the extraction
    request. *)
Theorem listing_urls_contain_tokens (job_title location : pystr) :
  let urls := find_jobs_urls job_title location in
  length urls = 3
  /\ (forall link, In link urls ->
        substring (hyphen_joined_tokens job_title) link
        /\ substring (hyphen_joined_tokens location) link)
  /\ hyphen_joined_tokens (py "Software Engineer") = py "software-engineer"
  /\ hyphen_joined_tokens (py "New York") = py "new-york"
  /\ (forall E experience_years skills st,
        exists prompt,
          extraction_requests
            (trace (snd (find_jobs E job_title location experience_years skills st)))
          = extraction_requests (trace st) ++ [(urls, prompt, ExtractSchema)]).
Proof.
  cbv zeta.
  assert (Htok : forall t, hyphen_joined_tokens t = replace (lower t) (py " ") (py "-")).
  { intros t. unfold hyphen_joined_tokens. apply (join_split_on 32 45). }
  split; [reflexivity|]. split; [|split; [|split]].
  - intros link Hin. rewrite !Htok. unfold find_jobs_urls in Hin.
    destruct Hin as [<- | [<- | [<- | []]]]; split;
      try (apply substring_app_r, substring_app_l, substring_refl);
      apply substring_app_r, substring_app_r, substring_app_r, substring_refl.
  - vm_compute. reflexivity.
  - vm_compute. reflexivity.
  - intros E exp skills st.
    exists (find_jobs_extract_prompt job_title location exp (join (py ", ") skills)).
    destruct (find_jobs_state E job_title location exp skills st)
      as [-> | [jobs ->]].
    + apply after_find_jobs_extraction_requests.
    + rewrite after_generation_requests.
      apply after_find_jobs_extraction_requests.
Qed.

(** C10. [get_industry_trends] builds exactly two salary URLs. The Payscale
    URL carries the category with every space turned into an underscore and
    every other character, in its original case, unchanged. The Glassdoor URL
    carries the lowercased category with spaces turned into hyphens, and
    after "SRCH_KO0," the number of characters of the category as given. *)
Theorem salary_urls_normalize_differently (job_category : pystr) :
  get_industry_trends_urls job_category
  = [ py "https://www.payscale.com/research/US/Job="
        ++ map (fun c => if (c =? 32)%N then 95%N else c) job_category
        ++ py "/Salary";
      py "https://www.glassdoor.com/Salaries/"
        ++ map (fun c => if (c =? 32)%N then 45%N else c) (lower job_category)
        ++ py "-salary-SRCH_KO0,"
        ++ str_of_int (Z.of_nat (length job_category))
        ++ py ".htm" ]
  /\ get_industry_trends_urls (py "Data Science")
     = [ py "https://www.payscale.com/research/US/Job=Data_Science/Salary";
         py "https://www.glassdoor.com/Salaries/data-science-salary-SRCH_KO0,12.htm" ]
  /\ (forall E st,
        exists prompt,
          extraction_requests (trace (snd (get_industry_trends E job_category st)))
          = extraction_requests (trace st)
            ++ [(get_industry_trends_urls job_category, prompt,
                 IndustryTrendsSchema)]).
Proof.
  split; [|split].
  - unfold get_industry_trends_urls.
    change (py " ") with [32%N]. change (py "_") with [95%N].
    change (py "-") with [45%N]. rewrite !replace_char_char.
    cbn [str_of repr]. unfold len. now rewrite nat_N_Z.
  - vm_compute. reflexivity.
  - intros E st. exists (get_industry_trends_extract_prompt job_category).
    destruct (get_industry_trends_state E job_category st) as [-> | [v ->]].
    + apply after_get_industry_trends_extraction_requests.
    + rewrite after_generation_requests.
      apply after_get_industry_trends_extraction_requests.
Qed.

End Prompts.

(* ===================================================================== *)
(** * Exceptions *)
(* ===================================================================== *)

Section Failures.

Context {U : UnicodeData}.

Lemma getitem_first (x : pyval) (rest : list pyval) :
  getitem (PList (x :: rest)) (Index 0) = Return x.
Proof. reflexivity. Qed.

(** C4, as the code has it. [_generate_text] lets no [Exception] out. A
    transport failure, a 4xx or 5xx status, a body that is not JSON, a body
    without a first element and a first element without ['generated_text']
    each come back as the text "Error generating text: " followed by the
    exception's message. With any other status and a body of the expected
    shape the value of ['generated_text'] comes back as it is, which is a
    string when that value is one. *)
Theorem generate_text_turns_failures_into_text
    (E : Env) (prompt : pystr) (st : state) :
  let out := fst (_generate_text E prompt st) in
  (forall e, out = Raise e -> exc_is_Exception e = false)
  /\ (forall e,
         generate_text_response E prompt st = Raise e ->
         exc_is_Exception e = true ->
         out = Return (PStr (py "Error generating text: " ++ exc_str e)))
  /\ (forall response,
         generate_text_response E prompt st = Return response ->
         ((400 <= status_code response < 600)%Z ->
          exists msg, out = Return (PStr (py "Error generating text: " ++ msg)))
         /\ (forall msg,
                json_body response = inl msg ->
                exists msg', out = Return (PStr (py "Error generating text: " ++ msg')))
         /\ (json_body response = inr (PList []) ->
             exists msg, out = Return (PStr (py "Error generating text: " ++ msg)))
         /\ (forall fields rest,
                json_body response = inr (PList (PDict fields :: rest)) ->
                lookup fields (py "generated_text") = None ->
                exists msg, out = Return (PStr (py "Error generating text: " ++ msg)))
         /\ (forall fields rest text,
                ~ (400 <= status_code response < 600)%Z ->
                json_body response = inr (PList (PDict fields :: rest)) ->
                lookup fields (py "generated_text") = Some text ->
                out = Return text)).
Proof.
  cbv zeta. split; [|split].
  - apply generate_text_escape.
  - intros e He Hexc. rewrite generate_text_run, He, Hexc. reflexivity.
  - intros response Hresp.
    assert (Hfail : forall e, generated_text_of response = Raise e ->
              fst (_generate_text E prompt st)
              = Return (PStr (py "Error generating text: " ++ exc_str e))).
    { intros e He. rewrite generate_text_run, Hresp, He. reflexivity. }
    assert (Hstatus : (400 <= status_code response < 600)%Z ->
              exists e, generated_text_of response = Raise e).
    { intros Hs. unfold generated_text_of, raise_for_status.
      destruct ((400 <=? status_code response) && (status_code response <? 500))%Z
        eqn:H4; [eexists; reflexivity|].
      destruct ((500 <=? status_code response) && (status_code response <? 600))%Z
        eqn:H5; [eexists; reflexivity|].
      apply andb_false_iff in H4, H5. exfalso.
      destruct H4 as [H4 | H4], H5 as [H5 | H5];
        first [apply Z.leb_gt in H4 | apply Z.ltb_ge in H4];
        first [apply Z.leb_gt in H5 | apply Z.ltb_ge in H5]; lia. }
    assert (Hbody : forall e,
              match response_json response with
              | Raise e' => Raise e'
              | Return body =>
                  match getitem body (Index 0) with
                  | Raise e' => Raise e'
                  | Return first => getitem first (Key (py "generated_text"))
                  end
              end = Raise e ->
              exists e', generated_text_of response = Raise e').
    { intros e He. unfold generated_text_of.
      destruct (raise_for_status response); [rewrite He|]; eexists; reflexivity. }
    split; [|split; [|split; [|split]]].
    + intros Hs. destruct (Hstatus Hs) as [e He]. eexists. apply (Hfail _ He).
    + intros msg Hmsg.
      destruct (Hbody (JSONDecodeError msg)) as [e He].
      { unfold response_json. now rewrite Hmsg. }
      eexists. apply (Hfail _ He).
    + intros Hjson.
      destruct (Hbody (IndexError (py "list index out of range"))) as [e He].
      { unfold response_json. now rewrite Hjson. }
      eexists. apply (Hfail _ He).
    + intros fields rest Hjson Hlook.
      destruct (Hbody (KeyError (PStr (py "generated_text")))) as [e He].
      { unfold response_json. rewrite Hjson, getitem_first.
        cbn [getitem]. now rewrite Hlook. }
      eexists. apply (Hfail _ He).
    + intros fields rest text Hs Hjson Hlook.
      rewrite generate_text_run, Hresp.
      unfold generated_text_of, raise_for_status, response_json.
      destruct ((400 <=? status_code response) && (status_code response <? 500))%Z
        eqn:H4.
      { apply andb_prop in H4 as [Ha Hb].
        apply Z.leb_le in Ha. apply Z.ltb_lt in Hb. lia. }
      destruct ((500 <=? status_code response) && (status_code response <? 600))%Z
        eqn:H5.
      { apply andb_prop in H5 as [Ha Hb].
        apply Z.leb_le in Ha. apply Z.ltb_lt in Hb. lia. }
      rewrite Hjson, getitem_first. cbn [getitem]. now rewrite Hlook.
Qed.

(** C3, as the code has it. No [Exception] leaves [find_jobs] or
    [get_industry_trends]: whatever escapes either of them does not derive
    from [Exception]. An [Exception] raised by the extraction call, or while
    the response is read, comes back as the operation's error text followed by
    the exception's message. *)
Theorem exceptions_become_error_text
    (E : Env) (job_title location : pystr) (experience_years : Z)
    (skills : list pystr) (job_category : pystr) (st : state) :
  let jobs_out := fst (find_jobs E job_title location experience_years skills st) in
  let trends_out := fst (get_industry_trends E job_category st) in
  (forall e, jobs_out = Raise e -> exc_is_Exception e = false)
  /\ (forall e,
         find_jobs_raw_response E job_title location experience_years skills st
         = Raise e ->
         exc_is_Exception e = true ->
         jobs_out
         = Return (PStr (py "An error occurred while searching for jobs: "
                         ++ exc_str e)))
  /\ (forall r e,
         find_jobs_raw_response E job_title location experience_years skills st
         = Return r ->
         records_of (py "job_postings") r = Raise e ->
         jobs_out
         = Return (PStr (py "An error occurred while searching for jobs: "
                         ++ exc_str e)))
  /\ (forall e, trends_out = Raise e -> exc_is_Exception e = false)
  /\ (forall e,
         get_industry_trends_raw_response E job_category st = Raise e ->
         exc_is_Exception e = true ->
         trends_out
         = Return (PStr (py "An error occurred while fetching industry trends: "
                         ++ exc_str e)))
  /\ (forall r e,
         get_industry_trends_raw_response E job_category st = Return r ->
         records_of (py "industry_trends") r = Raise e ->
         trends_out
         = Return (PStr (py "An error occurred while fetching industry trends: "
                         ++ exc_str e))).
Proof.
  cbv zeta. rewrite find_jobs_run, get_industry_trends_run. cbv zeta.
  repeat split.
  - intros e.
    destruct (find_jobs_raw_response E job_title location experience_years skills st)
      as [r | e'].
    + destruct (records_of (py "job_postings") r) as [jobs | e'']; [|discriminate].
      destruct (truthy jobs); [apply generate_text_escape | discriminate].
    + destruct (exc_is_Exception e') eqn:He'; [discriminate|].
      cbn [fst]. now intros [= <-].
  - intros e -> ->. reflexivity.
  - intros r e -> ->. reflexivity.
  - intros e.
    destruct (get_industry_trends_raw_response E job_category st) as [r | e'].
    + destruct (records_of (py "industry_trends") r) as [v | e'']; [|discriminate].
      destruct (truthy v); [apply generate_text_escape | discriminate].
    + destruct (exc_is_Exception e') eqn:He'; [discriminate|].
      cbn [fst]. now intros [= <-].
  - intros e -> ->. reflexivity.
  - intros r e -> ->. reflexivity.
Qed.

End Failures.

(* ===================================================================== *)
(** * Repeated calls *)
(* ===================================================================== *)

Section Repeatable.

Context {U : UnicodeData}.
Variable E : Env.
Hypothesis Edet : deterministic E.

Lemma generate_text_same_self (prompt : pystr) (st st' : state) :
  self st' = self st ->
  fst (_generate_text E prompt st') = fst (_generate_text E prompt st).
Proof.
  intros Hself. rewrite !generate_text_run.
  assert (Hresp : generate_text_response E prompt st'
                  = generate_text_response E prompt st).
  { unfold generate_text_response. rewrite Hself. apply (proj2 Edet). }
  rewrite Hresp.
  destruct (generate_text_response E prompt st) as [response | e].
  - now destruct (generated_text_of response).
  - now destruct (exc_is_Exception e).
Qed.

Lemma find_jobs_same_self jt loc exp skills (st st' : state) :
  self st' = self st ->
  fst (find_jobs E jt loc exp skills st') = fst (find_jobs E jt loc exp skills st).
Proof.
  intros Hself. rewrite !find_jobs_run. cbv zeta.
  assert (Hraw : find_jobs_raw_response E jt loc exp skills st'
                 = find_jobs_raw_response E jt loc exp skills st).
  { unfold find_jobs_raw_response, extract. cbn [fst self trace record].
    rewrite Hself. apply (proj1 Edet). }
  rewrite Hraw.
  destruct (find_jobs_raw_response E jt loc exp skills st) as [r | e].
  - destruct (records_of (py "job_postings") r) as [jobs | e]; [|reflexivity].
    destruct (truthy jobs); [|reflexivity].
    apply generate_text_same_self. exact Hself.
  - now destruct (exc_is_Exception e).
Qed.

End Repeatable.

Section Idempotence.

Context {U : UnicodeData}.

(** No operation writes to the agent. *)
Lemma find_jobs_keeps_self (E : Env) jt loc exp skills (st : state) :
  self (snd (find_jobs E jt loc exp skills st)) = self st.
Proof.
  destruct (find_jobs_state E jt loc exp skills st) as [-> | [jobs ->]];
    reflexivity.
Qed.

(** C8. Against services whose answers depend on the request alone, two
    calls of [find_jobs] with the same arguments, one after the other, give
    the same result; the agent's fields are as they were after each call, and
    the result is the same from any state in which the agent has the same
    fields. *)
Theorem find_jobs_twice_same_output
    (E : Env) (job_title location : pystr) (experience_years : Z)
    (skills : list pystr) (st : state) :
  deterministic E ->
  let first := find_jobs E job_title location experience_years skills st in
  let second := find_jobs E job_title location experience_years skills (snd first) in
  fst second = fst first
  /\ self (snd first) = self st
  /\ self (snd second) = self st
  /\ (forall st', self st' = self st ->
         fst (find_jobs E job_title location experience_years skills st')
         = fst first).
Proof.
  intros Edet first second. subst first second.
  pose proof (find_jobs_keeps_self E job_title location experience_years skills st)
    as Hself.
  repeat split.
  - apply find_jobs_same_self; assumption.
  - exact Hself.
  - rewrite find_jobs_keeps_self. exact Hself.
  - intros st' Hst'. apply find_jobs_same_self; assumption.
Qed.

End Idempotence.

(* ===================================================================== *)
(** * The operations on stub services *)
(* ===================================================================== *)

(** The runs below are on ASCII text. *)
#[local] Existing Instance ascii_only.

(** A failed extraction for [find_jobs], an empty one for
    [get_industry_trends]. *)
Lemma no_results_skip_generation_witness :
  fst (find_jobs (U := ascii_only)
         (stub (Return failed_extraction) (generation_ok (py "summary")))
         (py "Software Engineer") (py "New York") 2 [py "Python"; py "SQL"] fresh)
  = Return (PStr (py "No job listings found matching your criteria."))
  /\ fst (get_industry_trends (U := ascii_only)
            (stub (Return (extraction_of (py "industry_trends") []))
               (generation_ok (py "summary")))
            (py "Data Science") fresh)
     = Return (PStr (py "No industry trends data available for Data Science.")).
Proof.
  split.
  - refine (proj1 (proj1 (no_results_skip_generation (U := ascii_only)
                            (stub (Return failed_extraction)
                               (generation_ok (py "summary"))))
                     (py "Software Engineer") (py "New York") 2%Z
                     [py "Python"; py "SQL"] fresh failed_extraction eq_refl _)).
    left. eexists. split; reflexivity.
  - refine (proj1 (proj2 (no_results_skip_generation (U := ascii_only)
                            (stub (Return (extraction_of (py "industry_trends") []))
                               (generation_ok (py "summary"))))
                     (py "Data Science") fresh
                     (extraction_of (py "industry_trends") []) eq_refl _)).
    right. do 2 eexists. repeat split; reflexivity.
Defined.

(** "Data Science" with an empty list and with a failed extraction. *)
Lemma trends_empty_and_failed_alike_witness :
  fst (get_industry_trends (U := ascii_only)
         (stub (Return (extraction_of (py "industry_trends") []))
            (generation_ok (py "summary")))
         (py "Data Science") fresh)
  = fst (get_industry_trends (U := ascii_only)
           (stub (Return failed_extraction) (generation_ok (py "summary")))
           (py "Data Science") fresh).
Proof.
  refine (proj1 (trends_empty_and_failed_alike (U := ascii_only)
                   (stub (Return (extraction_of (py "industry_trends") []))
                      (generation_ok (py "summary")))
                   (stub (Return failed_extraction) (generation_ok (py "summary")))
                   (py "Data Science") fresh fresh
                   (r1 := extraction_of (py "industry_trends") [])
                   (r2 := failed_extraction) eq_refl _ eq_refl _)).
  - do 2 eexists. repeat split; reflexivity.
  - eexists. split; reflexivity.
Defined.

(** An SDK object instead of a [dict], and a data mapping that holds
    postings where trends are expected. *)
Lemma malformed_response_is_no_results_witness :
  fst (find_jobs (U := ascii_only)
         (stub (Return sdk_response) (generation_ok (py "summary")))
         (py "Software Engineer") (py "New York") 2 [py "Python"; py "SQL"] fresh)
  = Return (PStr (py "No job listings found matching your criteria."))
  /\ fst (get_industry_trends (U := ascii_only)
            (stub (Return (extraction_of (py "job_postings") two_postings))
               (generation_ok (py "summary")))
            (py "Data Science") fresh)
     = Return (PStr (py "No industry trends data available for Data Science.")).
Proof.
  split.
  - refine (proj1 (proj1 (malformed_response_is_no_results (U := ascii_only)
                            (stub (Return sdk_response)
                               (generation_ok (py "summary"))))
                     (py "Software Engineer") (py "New York") 2%Z
                     [py "Python"; py "SQL"] fresh sdk_response eq_refl _)).
    left. reflexivity.
  - refine (proj1 (proj2 (malformed_response_is_no_results (U := ascii_only)
                            (stub (Return (extraction_of (py "job_postings")
                                             two_postings))
                               (generation_ok (py "summary"))))
                     (py "Data Science") fresh
                     (extraction_of (py "job_postings") two_postings) eq_refl _)).
    right. do 2 eexists. repeat split; reflexivity.
Defined.

(** Two postings with plain titles: one generation call, both titles in its
    prompt, the generated text returned. *)
Lemma postings_are_summarized_witness :
  let run :=
    find_jobs (U := ascii_only)
      (stub (Return (extraction_of (py "job_postings") two_postings))
         (generation_ok (py "summary")))
      (py "Software Engineer") (py "New York") 2 [py "Python"; py "SQL"] fresh in
  fst run = Return (PStr (py "summary"))
  /\ generation_prompts (trace (snd run)) = [find_jobs_prompt (PList two_postings)]
  /\ substring (py "Software Engineer") (find_jobs_prompt (PList two_postings))
  /\ substring (py "Data Analyst") (find_jobs_prompt (PList two_postings)).
Proof.
  cbv zeta.
  pose proof (postings_are_summarized (U := ascii_only)
                (stub (Return (extraction_of (py "job_postings") two_postings))
                   (generation_ok (py "summary")))
                (py "Software Engineer") (py "New York") 2 [py "Python"; py "SQL"]
                fresh (r := extraction_of (py "job_postings") two_postings)
                (jobs := PList two_postings) eq_refl) as H.
  destruct H as (Hrun & Hprompts & _ & Htitles).
  - do 2 eexists. repeat split; reflexivity.
  - reflexivity.
  - split; [|split; [|split]].
    + rewrite Hrun. vm_compute. reflexivity.
    + exact Hprompts.
    + eapply (Htitles two_postings _ _ eq_refl).
      * left. reflexivity.
      * reflexivity.
      * reflexivity.
    + eapply (Htitles two_postings _ _ eq_refl).
      * right. left. reflexivity.
      * reflexivity.
      * reflexivity.
Defined.

(** C2, where the claim fails: of two postings the first is titled
    "AI\ML Engineer"; [_generate_text] is called once and its result is
    returned, but the prompt holds the title as [repr] prints it, with the
    backslash doubled, and the title itself is not in it. *)
Lemma escaped_title_is_not_in_the_prompt :
  let run :=
    find_jobs (U := ascii_only)
      (stub (Return (extraction_of (py "job_postings") backslash_postings))
         (generation_ok (py "summary")))
      (py "Engineer") (py "Remote") 2 [py "Python"; py "SQL"] fresh in
  fst run = Return (PStr (py "summary"))
  /\ generation_prompts (trace (snd run))
     = [find_jobs_prompt (U := ascii_only) (PList backslash_postings)]
  /\ ~ substring (py "AI\ML Engineer")
         (find_jobs_prompt (U := ascii_only) (PList backslash_postings)).
Proof.
  cbv zeta. split; [|split].
  - vm_compute. reflexivity.
  - vm_compute. reflexivity.
  - apply str_in_false. vm_compute. reflexivity.
Qed.

(** C7, where the claim fails: with skills ["Python", "SQL"] and one posting
    found, the one prompt given to [_generate_text] does not contain
    "Python, SQL". *)
Lemma skills_are_not_in_the_generation_prompt :
  let run :=
    find_jobs (U := ascii_only)
      (stub (Return (extraction_of (py "job_postings") two_postings))
         (generation_ok (py "summary")))
      (py "Software Engineer") (py "New York") 2 [py "Python"; py "SQL"] fresh in
  exists prompt,
    generation_prompts (trace (snd run)) = [prompt]
    /\ ~ substring (py "Python, SQL") prompt.
Proof.
  cbv zeta. eexists. split.
  - vm_compute. reflexivity.
  - apply str_in_false. vm_compute. reflexivity.
Qed.

(** The Indeed URL for "Software Engineer" in "New York". *)
Lemma listing_urls_contain_tokens_witness :
  substring (py "software-engineer")
    (py "https://www.indeed.com/jobs?q=software-engineer&l=new-york")
  /\ substring (py "new-york")
       (py "https://www.indeed.com/jobs?q=software-engineer&l=new-york").
Proof.
  refine (proj1 (proj2 (listing_urls_contain_tokens (U := ascii_only)
                          (py "Software Engineer") (py "New York")))
            (py "https://www.indeed.com/jobs?q=software-engineer&l=new-york") _).
  right. left. vm_compute. reflexivity.
Defined.

(** C4, where the claim fails: a body whose ['generated_text'] is [null]
    makes [_generate_text] return [None], which is not a string; a 304 answer
    with a well-formed body gives the generated text and no error text; a
    [KeyboardInterrupt] during the request is not caught. *)
Lemma generate_text_outside_the_claim :
  fst (_generate_text (U := ascii_only)
         (stub (Return PNone)
            (Return (ok_response (PList [PDict [(py "generated_text", PNone)]]))))
         (py "hello") fresh)
  = Return PNone
  /\ fst (_generate_text (U := ascii_only)
            (stub (Return PNone)
               (Return (response_with 304 (py "Not Modified")
                          (inr (generated (py "cached text"))))))
            (py "hello") fresh)
     = Return (PStr (py "cached text"))
  /\ fst (_generate_text (U := ascii_only)
            (stub (Return PNone) (Raise KeyboardInterrupt))
            (py "hello") fresh)
     = Raise KeyboardInterrupt.
Proof. repeat split; vm_compute; reflexivity. Qed.

(** A refused connection, a 503 answer, and a well-formed answer. *)
Lemma generate_text_turns_failures_into_text_witness :
  fst (_generate_text (U := ascii_only)
         (stub (Return PNone) (Raise ConnectionError)) (py "hello") fresh)
  = Return (PStr (py "Error generating text: connection refused"))
  /\ (exists msg,
         fst (_generate_text (U := ascii_only)
                (stub (Return PNone)
                   (Return (response_with 503 (py "Service Unavailable")
                              (inl (py "Expecting value: line 1 column 1 (char 0)")))))
                (py "hello") fresh)
         = Return (PStr (py "Error generating text: " ++ msg)))
  /\ fst (_generate_text (U := ascii_only)
            (stub (Return PNone) (generation_ok (py "summary")))
            (py "hello") fresh)
     = Return (PStr (py "summary")).
Proof.
  split; [|split].
  - refine (proj1 (proj2 (generate_text_turns_failures_into_text
                            (U := ascii_only)
                            (stub (Return PNone) (Raise ConnectionError))
                            (py "hello") fresh))
              ConnectionError eq_refl eq_refl).
  - refine (proj1 (proj2 (proj2 (generate_text_turns_failures_into_text
                                   (U := ascii_only)
                                   (stub (Return PNone)
                                      (Return (response_with 503
                                                 (py "Service Unavailable")
                                                 (inl (py "Expecting value: line 1 column 1 (char 0)")))))
                                   (py "hello") fresh))
                     (response_with 503 (py "Service Unavailable")
                        (inl (py "Expecting value: line 1 column 1 (char 0)")))
                     eq_refl) _).
    cbn [status_code response_with]. lia.
  - refine (proj2 (proj2 (proj2 (proj2
              (proj2 (proj2 (generate_text_turns_failures_into_text
                               (U := ascii_only)
                               (stub (Return PNone) (generation_ok (py "summary")))
                               (py "hello") fresh))
                 (ok_response (generated (py "summary"))) eq_refl))))
              [(py "generated_text", PStr (py "summary"))] []
              (PStr (py "summary")) _ eq_refl eq_refl).
    cbn [status_code ok_response]. lia.
Defined.

(** C3, where the claim fails: a [KeyboardInterrupt] raised while the
    extraction request is out passes the [except Exception] clause and leaves
    both operations. *)
Lemma keyboard_interrupt_leaves_the_operations :
  fst (find_jobs (U := ascii_only)
         (stub (Raise KeyboardInterrupt) (generation_ok (py "summary")))
         (py "Software Engineer") (py "New York") 2 [py "Python"; py "SQL"] fresh)
  = Raise KeyboardInterrupt
  /\ fst (get_industry_trends (U := ascii_only)
            (stub (Raise KeyboardInterrupt) (generation_ok (py "summary")))
            (py "Data Science") fresh)
     = Raise KeyboardInterrupt.
Proof. split; vm_compute; reflexivity. Qed.

(** A refused connection during the extraction, and a successful response
    without ['data']. *)
Lemma exceptions_become_error_text_witness :
  fst (find_jobs (U := ascii_only)
         (stub (Raise ConnectionError) (generation_ok (py "summary")))
         (py "Software Engineer") (py "New York") 2 [py "Python"; py "SQL"] fresh)
  = Return (PStr (py "An error occurred while searching for jobs: connection refused"))
  /\ fst (get_industry_trends (U := ascii_only)
            (stub (Return (PDict [(py "success", PBool true)]))
               (generation_ok (py "summary")))
            (py "Data Science") fresh)
     = Return (PStr (py "An error occurred while fetching industry trends: 'data'")).
Proof.
  split.
  - refine (proj1 (proj2 (exceptions_become_error_text (U := ascii_only)
                            (stub (Raise ConnectionError)
                               (generation_ok (py "summary")))
                            (py "Software Engineer") (py "New York") 2
                            [py "Python"; py "SQL"] (py "Data Science") fresh))
              ConnectionError eq_refl eq_refl).
  - refine (proj2 (proj2 (proj2 (proj2 (proj2
              (exceptions_become_error_text (U := ascii_only)
                 (stub (Return (PDict [(py "success", PBool true)]))
                    (generation_ok (py "summary")))
                 (py "Software Engineer") (py "New York") 2
                 [py "Python"; py "SQL"] (py "Data Science") fresh)))))
              (PDict [(py "success", PBool true)])
              (KeyError (U := ascii_only) (PStr (py "data"))) eq_refl eq_refl).
Defined.

(** Two calls in a row against a stub pair. *)
Lemma find_jobs_twice_same_output_witness :
  let E := stub (Return (extraction_of (py "job_postings") two_postings))
             (generation_ok (py "summary")) in
  let first :=
    find_jobs (U := ascii_only) E (py "Software Engineer") (py "New York") 2
      [py "Python"; py "SQL"] fresh in
  fst (find_jobs (U := ascii_only) E (py "Software Engineer") (py "New York") 2
         [py "Python"; py "SQL"] (snd first))
  = fst first.
Proof.
  cbv zeta.
  refine (proj1 (find_jobs_twice_same_output (U := ascii_only)
                   (E := stub (Return (extraction_of (py "job_postings") two_postings))
                           (generation_ok (py "summary")))
                   (py "Software Engineer") (py "New York") 2%Z
                   [py "Python"; py "SQL"] fresh _)).
  split; intros; reflexivity.
Defined.

(** Determinism of the services is needed for that: against a service that remembers earlier
    requests the second call can give another result, although the agent has
    not changed. *)
Lemma find_jobs_twice_on_a_service_with_memory :
  let first :=
    find_jobs (U := ascii_only) one_shot (py "Software Engineer") (py "New York") 2
      [py "Python"; py "SQL"] fresh in
  let second :=
    find_jobs (U := ascii_only) one_shot (py "Software Engineer") (py "New York") 2
      [py "Python"; py "SQL"] (snd first) in
  fst first = Return (PStr (py "summary"))
  /\ fst second = Return (PStr (py "No job listings found matching your criteria."))
  /\ self (snd second) = self fresh
  /\ ~ deterministic one_shot.
Proof.
  cbv zeta. repeat split; try (vm_compute; reflexivity).
  intros [Hextract _].
  specialize (Hextract [] [Extract [] [] [] ExtractSchema] [] [] [] ExtractSchema).
  discriminate Hextract.
Qed.

(* ===================================================================== *)
(** * Further properties of the agent *)
(* ===================================================================== *)

(** From here on the Unicode tables are again those of the context. *)
#[local] Remove Hints ascii_only : typeclass_instances.

Section AgentMore.

Context {U : UnicodeData}.

Lemma get_industry_trends_with_records (E : Env) cat (st : state) (r v : pyval) :
  get_industry_trends_raw_response E cat st = Return r ->
  records_of (py "industry_trends") r = Return v ->
  truthy v = true ->
  get_industry_trends E cat st
  = _generate_text E (get_industry_trends_prompt cat v)
      (after_get_industry_trends_extraction cat st).
Proof.
  intros Hraw Hrec Hv. rewrite get_industry_trends_run. cbv zeta.
  now rewrite Hraw, Hrec, Hv.
Qed.

(** X1. When the provider reports success with a non-empty list of trends,
    [get_industry_trends] calls [_generate_text] exactly once, on a prompt
    that names the category and embeds [str(industries)], and returns that
    call's result unchanged. *)
Theorem trends_are_summarized
    (E : Env) (job_category : pystr) (st : state) (r industries : pyval) :
  get_industry_trends_raw_response E job_category st = Return r ->
  succeeds_with (py "industry_trends") industries r ->
  truthy industries = true ->
  let run := get_industry_trends E job_category st in
  let prompt := get_industry_trends_prompt job_category industries in
  run = _generate_text E prompt
          (after_get_industry_trends_extraction job_category st)
  /\ generation_prompts (trace (snd run)) = generation_prompts (trace st) ++ [prompt]
  /\ substring (py "Analyze these trends for " ++ job_category) prompt
  /\ substring (str_of industries) prompt.
Proof.
  intros Hraw Hok Hv run prompt. subst run prompt.
  rewrite (get_industry_trends_with_records E _ _ Hraw (records_of_success Hok) Hv).
  split; [reflexivity|]. split; [|split].
  - rewrite generate_text_state, after_generation_prompts.
    now rewrite after_get_industry_trends_extraction_prompts.
  - unfold get_industry_trends_prompt. rewrite app_assoc.
    apply substring_app_l, substring_refl.
  - unfold get_industry_trends_prompt.
    do 3 apply substring_app_r. apply substring_app_l, substring_refl.
Qed.

(** The HTTP request of [_generate_text] for [prompt], sent by [agent]. *)
Lemma after_generation_trace (prompt : pystr) (st : state) :
  trace (after_generation prompt st)
  = trace st
    ++ [ Tracked (py "_generate_text") [PStr prompt];
         Post (model_url (self st))
           [ (py "Authorization", py "Bearer " ++ hf_api_key (self st));
             (py "Content-Type", py "application/json") ]
           (PDict [ (py "inputs", PStr prompt);
                    (py "parameters", PDict [ (py "max_new_tokens", PInt 800) ]) ]) ].
Proof.
  unfold after_generation, record. cbn [trace self]. now rewrite <- app_assoc.
Qed.

(** X2. One call of [find_jobs] or [get_industry_trends] sends exactly one
    extraction request, with the agent's Firecrawl key, and after it at most
    one HTTP request: a POST to the agent's [model_url] that carries
    "Bearer <hf_api_key>", the prompt as ["inputs"] and [max_new_tokens] 800.
    Nothing else is sent, and nothing already in the trace is changed. *)
Theorem one_extraction_then_at_most_one_post
    (E : Env) (job_title location : pystr) (experience_years : Z)
    (skills : list pystr) (job_category : pystr) (st : state) :
  let generation prompt :=
    [ Tracked (py "_generate_text") [PStr prompt];
      Post (model_url (self st))
        [ (py "Authorization", py "Bearer " ++ hf_api_key (self st));
          (py "Content-Type", py "application/json") ]
        (PDict [ (py "inputs", PStr prompt);
                 (py "parameters", PDict [ (py "max_new_tokens", PInt 800) ]) ]) ] in
  (exists tail,
      trace (snd (find_jobs E job_title location experience_years skills st))
      = trace st
        ++ [ Tracked (py "find_jobs")
               [PStr job_title; PStr location; PInt experience_years;
                PList (map PStr skills)];
             Extract (api_key (firecrawl (self st)))
               (find_jobs_urls job_title location)
               (find_jobs_extract_prompt job_title location experience_years
                  (join (py ", ") skills))
               ExtractSchema ]
        ++ tail
      /\ (tail = [] \/ exists jobs, tail = generation (find_jobs_prompt jobs)))
  /\ (exists tail,
         trace (snd (get_industry_trends E job_category st))
         = trace st
           ++ [ Tracked (py "get_industry_trends") [PStr job_category];
                Extract (api_key (firecrawl (self st)))
                  (get_industry_trends_urls job_category)
                  (get_industry_trends_extract_prompt job_category)
                  IndustryTrendsSchema ]
           ++ tail
         /\ (tail = []
             \/ exists industries,
                 tail = generation (get_industry_trends_prompt job_category industries))).
Proof.
  cbv zeta. split.
  - destruct (find_jobs_state E job_title location experience_years skills st)
      as [-> | [jobs ->]].
    + exists []. split; [|now left].
      unfold after_find_jobs_extraction, record. cbn [trace self].
      now rewrite <- !app_assoc.
    + eexists. split; [|right; exists jobs; reflexivity].
      rewrite after_generation_trace.
      unfold after_find_jobs_extraction, record. cbn [trace self].
      now rewrite <- !app_assoc.
  - destruct (get_industry_trends_state E job_category st) as [-> | [v ->]].
    + exists []. split; [|now left].
      unfold after_get_industry_trends_extraction, record. cbn [trace self].
      now rewrite <- !app_assoc.
    + eexists. split; [|right; exists v; reflexivity].
      rewrite after_generation_trace.
      unfold after_get_industry_trends_extraction, record. cbn [trace self].
      now rewrite <- !app_assoc.
Qed.

Lemma snoc_neq {A : Type} (l : list A) (x : A) : l ++ [x] <> l.
Proof.
  intros H. apply (f_equal (@length A)) in H.
  rewrite length_app in H. simpl in H. lia.
Qed.

(** X3. [find_jobs] contacts the generation service exactly when the
    extraction call returned a response from which a non-empty records value
    could be read; an extraction that raises, a failed or malformed response
    and an empty list all end the operation before [_generate_text]. The same
    holds for [get_industry_trends]. *)
Theorem generation_only_after_records
    (E : Env) (job_title location : pystr) (experience_years : Z)
    (skills : list pystr) (job_category : pystr) (st : state) :
  (generation_prompts
     (trace (snd (find_jobs E job_title location experience_years skills st)))
   <> generation_prompts (trace st)
   <-> exists r jobs,
         find_jobs_raw_response E job_title location experience_years skills st
         = Return r
         /\ records_of (py "job_postings") r = Return jobs
         /\ truthy jobs = true)
  /\ (generation_prompts (trace (snd (get_industry_trends E job_category st)))
      <> generation_prompts (trace st)
      <-> exists r industries,
            get_industry_trends_raw_response E job_category st = Return r
            /\ records_of (py "industry_trends") r = Return industries
            /\ truthy industries = true).
Proof.
  split.
  - rewrite find_jobs_run. cbv zeta.
    destruct (find_jobs_raw_response E job_title location experience_years skills st)
      as [r | e].
    + destruct (records_of (py "job_postings") r) as [jobs | e] eqn:Hrec.
      * destruct (truthy jobs) eqn:Hjobs.
        -- rewrite generate_text_state, after_generation_prompts,
             after_find_jobs_extraction_prompts.
           split; [intros _; now exists r, jobs | intros _; apply snoc_neq].
        -- cbn [snd]. rewrite after_find_jobs_extraction_prompts.
           split; [congruence|].
           intros (r' & jobs' & [= <-] & Hrec' & Ht). congruence.
      * cbn [snd]. rewrite after_find_jobs_extraction_prompts.
        split; [congruence|].
        intros (r' & jobs' & [= <-] & Hrec' & Ht). congruence.
    + assert (Hst : snd (if exc_is_Exception e
                         then (Return (PStr (py "An error occurred while searching for jobs: "
                                             ++ exc_str e)),
                               after_find_jobs_extraction job_title location
                                 experience_years skills st)
                         else (@Raise pyval e,
                               after_find_jobs_extraction job_title location
                                 experience_years skills st))
                    = after_find_jobs_extraction job_title location
                        experience_years skills st)
        by now destruct (exc_is_Exception e).
      rewrite Hst, after_find_jobs_extraction_prompts.
      split; [congruence | intros (r' & jobs' & H & _); discriminate].
  - rewrite get_industry_trends_run. cbv zeta.
    destruct (get_industry_trends_raw_response E job_category st) as [r | e].
    + destruct (records_of (py "industry_trends") r) as [v | e] eqn:Hrec.
      * destruct (truthy v) eqn:Hv.
        -- rewrite generate_text_state, after_generation_prompts,
             after_get_industry_trends_extraction_prompts.
           split; [intros _; now exists r, v | intros _; apply snoc_neq].
        -- cbn [snd]. rewrite after_get_industry_trends_extraction_prompts.
           split; [congruence|].
           intros (r' & v' & [= <-] & Hrec' & Ht). congruence.
      * cbn [snd]. rewrite after_get_industry_trends_extraction_prompts.
        split; [congruence|].
        intros (r' & v' & [= <-] & Hrec' & Ht). congruence.
    + assert (Hst : snd (if exc_is_Exception e
                         then (Return (PStr (py "An error occurred while fetching industry trends: "
                                             ++ exc_str e)),
                               after_get_industry_trends_extraction job_category st)
                         else (@Raise pyval e,
                               after_get_industry_trends_extraction job_category st))
                    = after_get_industry_trends_extraction job_category st)
        by now destruct (exc_is_Exception e).
      rewrite Hst, after_get_industry_trends_extraction_prompts.
      split; [congruence | intros (r' & v' & H & _); discriminate].
Qed.

End AgentMore.

(* ===================================================================== *)
(** * Responses without usable data, and failing generation *)
(* ===================================================================== *)

Section EdgeResponses.

Context {U : UnicodeData}.

Lemma find_jobs_unreadable (E : Env) jt loc exp skills (st : state) (r : pyval)
    (e : pyexc) :
  find_jobs_raw_response E jt loc exp skills st = Return r ->
  records_of (py "job_postings") r = Raise e ->
  find_jobs E jt loc exp skills st
  = (Return (PStr (py "An error occurred while searching for jobs: " ++ exc_str e)),
     after_find_jobs_extraction jt loc exp skills st).
Proof.
  intros Hraw Hrec. rewrite find_jobs_run. cbv zeta. now rewrite Hraw, Hrec.
Qed.

Lemma get_industry_trends_unreadable (E : Env) cat (st : state) (r : pyval)
    (e : pyexc) :
  get_industry_trends_raw_response E cat st = Return r ->
  records_of (py "industry_trends") r = Raise e ->
  get_industry_trends E cat st
  = (Return (PStr (py "An error occurred while fetching industry trends: "
                   ++ exc_str e)),
     after_get_industry_trends_extraction cat st).
Proof.
  intros Hraw Hrec. rewrite get_industry_trends_run. cbv zeta.
  now rewrite Hraw, Hrec.
Qed.

Lemma records_of_no_data (key : pystr) (entries : list (pystr * pyval)) :
  truthy (success_flag entries) = true ->
  lookup entries (py "data") = None ->
  records_of key (PDict entries) = Raise (KeyError (PStr (py "data"))).
Proof.
  intros Hflag Hdata. unfold records_of. rewrite Hflag. cbn [getitem].
  now rewrite Hdata.
Qed.

Lemma records_of_data_not_dict (key : pystr) (entries : list (pystr * pyval))
    (data : pyval) :
  truthy (success_flag entries) = true ->
  lookup entries (py "data") = Some data ->
  isinstance_dict data = false ->
  records_of key (PDict entries)
  = Raise (AttributeError
             (py "'" ++ type_name data ++ py "' object has no attribute 'get'")).
Proof.
  intros Hflag Hdata Hnd. unfold records_of. rewrite Hflag. cbn [getitem].
  rewrite Hdata. destruct data; try reflexivity. discriminate.
Qed.

(** X4. A response that reports success but has no ['data'] entry makes both
    operations return their error text followed by ['data'] in quotes (the
    text of the [KeyError]); a ['data'] entry that is not a [dict] gives the
    error text followed by "'<type>' object has no attribute 'get'". In
    neither case is [_generate_text] called. *)
Theorem success_without_usable_data
    (E : Env) (job_title location : pystr) (experience_years : Z)
    (skills : list pystr) (job_category : pystr) (st : state)
    (entries : list (pystr * pyval)) :
  truthy (success_flag entries) = true ->
  (find_jobs_raw_response E job_title location experience_years skills st
   = Return (PDict entries) ->
   let run := find_jobs E job_title location experience_years skills st in
   (lookup entries (py "data") = None ->
    fst run
    = Return (PStr (py "An error occurred while searching for jobs: 'data'"))
    /\ generation_prompts (trace (snd run)) = generation_prompts (trace st))
   /\ (forall data,
          lookup entries (py "data") = Some data ->
          isinstance_dict data = false ->
          fst run
          = Return (PStr (py "An error occurred while searching for jobs: '"
                          ++ type_name data
                          ++ py "' object has no attribute 'get'"))
          /\ generation_prompts (trace (snd run)) = generation_prompts (trace st)))
  /\ (get_industry_trends_raw_response E job_category st = Return (PDict entries) ->
      let run := get_industry_trends E job_category st in
      (lookup entries (py "data") = None ->
       fst run
       = Return (PStr (py "An error occurred while fetching industry trends: 'data'"))
       /\ generation_prompts (trace (snd run)) = generation_prompts (trace st))
      /\ (forall data,
             lookup entries (py "data") = Some data ->
             isinstance_dict data = false ->
             fst run
             = Return (PStr (py "An error occurred while fetching industry trends: '"
                             ++ type_name data
                             ++ py "' object has no attribute 'get'"))
             /\ generation_prompts (trace (snd run)) = generation_prompts (trace st))).
Proof.
  intros Hflag. split; intros Hraw run; subst run; split.
  - intros Hdata.
    rewrite (find_jobs_unreadable E _ _ _ _ _ Hraw
               (records_of_no_data _ _ Hflag Hdata)).
    split; [reflexivity | apply after_find_jobs_extraction_prompts].
  - intros data Hdata Hnd.
    rewrite (find_jobs_unreadable E _ _ _ _ _ Hraw
               (records_of_data_not_dict _ _ Hflag Hdata Hnd)).
    split; [|apply after_find_jobs_extraction_prompts].
    cbn [fst AttributeError exc_str]. rewrite app_assoc. reflexivity.
  - intros Hdata.
    rewrite (get_industry_trends_unreadable E _ _ Hraw
               (records_of_no_data _ _ Hflag Hdata)).
    split; [reflexivity | apply after_get_industry_trends_extraction_prompts].
  - intros data Hdata Hnd.
    rewrite (get_industry_trends_unreadable E _ _ Hraw
               (records_of_data_not_dict _ _ Hflag Hdata Hnd)).
    split; [|apply after_get_industry_trends_extraction_prompts].
    cbn [fst AttributeError exc_str]. rewrite app_assoc. reflexivity.
Qed.

(** X5. A failure of the generation service does not reach the handler of
    the operation that called it: when records were found and the HTTP
    request raises an [Exception], or is answered with a 4xx status, the
    operation returns the text "Error generating text: ..." of
    [_generate_text] as its result, not its own "An error occurred ..."
    text. *)
Theorem generation_failure_is_the_result
    (E : Env) (job_title location : pystr) (experience_years : Z)
    (skills : list pystr) (st : state) (r jobs : pyval) :
  find_jobs_raw_response E job_title location experience_years skills st
  = Return r ->
  records_of (py "job_postings") r = Return jobs ->
  truthy jobs = true ->
  let st' :=
    after_find_jobs_extraction job_title location experience_years skills st in
  let out := fst (find_jobs E job_title location experience_years skills st) in
  (forall e,
      generate_text_response E (find_jobs_prompt jobs) st' = Raise e ->
      exc_is_Exception e = true ->
      out = Return (PStr (py "Error generating text: " ++ exc_str e)))
  /\ (forall response,
         generate_text_response E (find_jobs_prompt jobs) st' = Return response ->
         (400 <= status_code response < 500)%Z ->
         out = Return (PStr (py "Error generating text: "
                             ++ str_of_int (status_code response)
                             ++ py " Client Error: " ++ reason response
                             ++ py " for url: " ++ url response))).
Proof.
  intros Hraw Hrec Hjobs st' out. subst st' out.
  rewrite (find_jobs_with_records E _ _ _ _ _ Hraw Hrec Hjobs).
  rewrite generate_text_run. split.
  - intros e -> ->. reflexivity.
  - intros response -> Hs.
    unfold generated_text_of, raise_for_status.
    replace ((400 <=? status_code response) && (status_code response <? 500))%Z
      with true.
    + reflexivity.
    + symmetry. apply andb_true_iff. split; [apply Z.leb_le | apply Z.ltb_lt]; lia.
Qed.

End EdgeResponses.

(* ===================================================================== *)
(** * The URLs on ASCII text, and calls in sequence *)
(* ===================================================================== *)

Section UrlsAndSequences.

Context {U : UnicodeData}.

Lemma ascii_lower_space (c : N) : (ascii_lower c =? 32)%N = (c =? 32)%N.
Proof.
  unfold ascii_lower.
  destruct ((65 <=? c) && (c <=? 90))%N eqn:Hup; [|reflexivity].
  apply andb_prop in Hup as [Hlo _]. apply N.leb_le in Hlo.
  transitivity false; [apply N.eqb_neq | symmetry; apply N.eqb_neq]; lia.
Qed.

(** On ASCII text the normalization works character by character. *)
Lemma normalize_ascii (s : pystr) :
  is_ascii s = true ->
  replace (lower s) (py " ") (py "-")
  = map (fun c => if (c =? 32)%N then 45%N else ascii_lower c) s.
Proof.
  intros Hs. unfold lower. rewrite Hs.
  change (py " ") with [32%N]. change (py "-") with [45%N].
  rewrite replace_char_char, map_map.
  apply map_ext. intros c. now rewrite ascii_lower_space.
Qed.

Lemma no_space_in_token (s : pystr) :
  ~ In 32%N (map (fun c => if (c =? 32)%N then 45%N else ascii_lower c) s).
Proof.
  intros Hin. apply in_map_iff in Hin as (c & Hc & _).
  destruct (c =? 32)%N eqn:Hsp; [discriminate|].
  rewrite <- ascii_lower_space in Hsp. apply N.eqb_neq in Hsp. congruence.
Qed.

Lemma existsb_not_In (x : N) (l : pystr) :
  existsb (N.eqb x) l = false -> ~ In x l.
Proof.
  intros H Hin.
  assert (existsb (N.eqb x) l = true)
    by (apply existsb_exists; exists x; split; [assumption | apply N.eqb_refl]).
  congruence.
Qed.

(** X6. For an ASCII title and location the three listing URLs are built
    character by character: a space becomes a hyphen, a capital letter its
    small letter, and every other character, "&", "#", "?" and "/" included,
    goes into the URL as it is, unescaped. No URL contains a space. *)
Theorem listing_urls_on_ascii_text (job_title location : pystr) :
  is_ascii job_title = true ->
  is_ascii location = true ->
  let token :=
    map (fun c => if (c =? 32)%N then 45%N else ascii_lower c) in
  find_jobs_urls job_title location
  = [ py "https://www.naukri.com/" ++ token job_title
        ++ py "-jobs-in-" ++ token location;
      py "https://www.indeed.com/jobs?q=" ++ token job_title
        ++ py "&l=" ++ token location;
      py "https://www.monster.com/jobs/search/?q=" ++ token job_title
        ++ py "&where=" ++ token location ]
  /\ (forall link, In link (find_jobs_urls job_title location) -> ~ In 32%N link).
Proof.
  intros Ht Hl token.
  assert (Hurls : find_jobs_urls job_title location
                  = [ py "https://www.naukri.com/" ++ token job_title
                        ++ py "-jobs-in-" ++ token location;
                      py "https://www.indeed.com/jobs?q=" ++ token job_title
                        ++ py "&l=" ++ token location;
                      py "https://www.monster.com/jobs/search/?q=" ++ token job_title
                        ++ py "&where=" ++ token location ]).
  { unfold find_jobs_urls. cbv zeta. now rewrite !normalize_ascii by assumption. }
  split; [exact Hurls|].
  intros link Hin. rewrite Hurls in Hin.
  destruct Hin as [<- | [<- | [<- | []]]]; intros Hsp;
    repeat (apply in_app_or in Hsp as [Hsp | Hsp]);
    try (revert Hsp; apply no_space_in_token);
    (revert Hsp; apply existsb_not_In; vm_compute; reflexivity).
Qed.

(** ** Calls in sequence *)

Lemma get_industry_trends_keeps_self (E : Env) cat (st : state) :
  self (snd (get_industry_trends E cat st)) = self st.
Proof.
  destruct (get_industry_trends_state E cat st) as [-> | [v ->]]; reflexivity.
Qed.

Lemma get_industry_trends_same_self (E : Env) cat (st st' : state) :
  deterministic E ->
  self st' = self st ->
  fst (get_industry_trends E cat st') = fst (get_industry_trends E cat st).
Proof.
  intros Edet Hself. rewrite !get_industry_trends_run. cbv zeta.
  assert (Hraw : get_industry_trends_raw_response E cat st'
                 = get_industry_trends_raw_response E cat st).
  { unfold get_industry_trends_raw_response, extract. cbn [fst self trace record].
    rewrite Hself. apply (proj1 Edet). }
  rewrite Hraw.
  destruct (get_industry_trends_raw_response E cat st) as [r | e].
  - destruct (records_of (py "industry_trends") r) as [v | e]; [|reflexivity].
    destruct (truthy v); [|reflexivity].
    apply generate_text_same_self; assumption.
  - now destruct (exc_is_Exception e).
Qed.

(** X7. Against services whose answers depend on the request alone, the two
    operations do not influence each other: [get_industry_trends] gives the
    same result after a [find_jobs] as on its own, and the other way round,
    and the agent's fields are the same after both. *)
Theorem operations_do_not_interfere
    (E : Env) (job_title location : pystr) (experience_years : Z)
    (skills : list pystr) (job_category : pystr) (st : state) :
  deterministic E ->
  let after_jobs := snd (find_jobs E job_title location experience_years skills st) in
  let after_trends := snd (get_industry_trends E job_category st) in
  fst (get_industry_trends E job_category after_jobs)
  = fst (get_industry_trends E job_category st)
  /\ fst (find_jobs E job_title location experience_years skills after_trends)
     = fst (find_jobs E job_title location experience_years skills st)
  /\ self (snd (get_industry_trends E job_category after_jobs)) = self st.
Proof.
  intros Edet after_jobs after_trends. subst after_jobs after_trends.
  split; [|split].
  - apply get_industry_trends_same_self; [assumption|].
    apply find_jobs_keeps_self.
  - apply find_jobs_same_self; [assumption|].
    apply get_industry_trends_keeps_self.
  - rewrite get_industry_trends_keeps_self. apply find_jobs_keeps_self.
Qed.

End UrlsAndSequences.

(* ===================================================================== *)
(** * The skills field *)
(* ===================================================================== *)

Section Skills.

Lemma drop_while_suffix (p : N -> bool) (s : pystr) :
  exists pre, s = pre ++ drop_while p s /\ forallb p pre = true.
Proof.
  induction s as [|c t (pre & Ht & Hpre)]; [now exists []|].
  simpl. destruct (p c) eqn:Hc.
  - exists (c :: pre). split; [simpl; congruence | simpl; now rewrite Hc].
  - now exists [].
Qed.

Lemma drop_while_head (p : N -> bool) (s : pystr) (c : N) (t : pystr) :
  drop_while p s = c :: t -> p c = false.
Proof.
  induction s as [|d u IH]; [discriminate|].
  simpl. destruct (p d) eqn:Hd; [exact IH|]. now intros [= <- <-].
Qed.

Lemma drop_while_id (p : N -> bool) (s : pystr) :
  (forall c t, s = c :: t -> p c = false) -> drop_while p s = s.
Proof.
  destruct s as [|c t]; [reflexivity|].
  intros H. simpl. now rewrite (H c t eq_refl).
Qed.

Lemma drop_while_In (p : N -> bool) (s : pystr) (x : N) :
  In x (drop_while p s) -> In x s.
Proof.
  destruct (drop_while_suffix p s) as (pre & Hs & _).
  intros Hin. rewrite Hs. apply in_or_app. now right.
Qed.

Lemma strip_In (s : pystr) (x : N) : In x (strip s) -> In x s.
Proof.
  unfold strip. intros Hin.
  apply in_rev in Hin. apply drop_while_In in Hin.
  apply in_rev in Hin. now apply drop_while_In in Hin.
Qed.

(** A text is stripped when it neither starts nor ends with whitespace. *)
Lemma strip_fixed_iff (s : pystr) :
  strip s = s
  <-> (forall c t, s = c :: t -> is_whitespace c = false)
      /\ (forall c t, s = t ++ [c] -> is_whitespace c = false).
Proof.
  split.
  - intros Hs. split.
    + intros c t Hct.
      unfold strip in Hs.
      destruct (drop_while_suffix is_whitespace s) as (pre & Hpre & Hall).
      destruct (drop_while_suffix is_whitespace (rev (drop_while is_whitespace s)))
        as (pre' & Hpre' & Hall').
      assert (Hlen : length (drop_while is_whitespace s) = length s).
      { apply (f_equal (@length N)) in Hs. rewrite length_rev in Hs.
        apply (f_equal (@length N)) in Hpre'.
        rewrite length_app, length_rev in Hpre'.
        apply (f_equal (@length N)) in Hpre. rewrite length_app in Hpre. lia. }
      assert (pre = []).
      { apply (f_equal (@length N)) in Hpre. rewrite length_app in Hpre.
        destruct pre; [reflexivity | simpl in Hpre; lia]. }
      subst pre. simpl in Hpre.
      apply (drop_while_head is_whitespace s (t := t)). congruence.
    + intros c t Hct.
      unfold strip in Hs.
      assert (Hrev : drop_while is_whitespace (rev (drop_while is_whitespace s))
                     = rev s).
      { rewrite <- Hs at 2. now rewrite rev_involutive. }
      rewrite Hct, rev_app_distr in Hrev. simpl in Hrev.
      apply (drop_while_head _ _ Hrev).
  - intros [Hhead Hlast]. unfold strip.
    rewrite (drop_while_id _ Hhead).
    rewrite drop_while_id; [apply rev_involutive|].
    intros c t Hct. apply (Hlast c (rev t)).
    rewrite <- (rev_involutive s), Hct. reflexivity.
Qed.

Lemma strip_idempotent (s : pystr) : strip (strip s) = strip s.
Proof.
  apply strip_fixed_iff. split.
  - intros c t Hct. unfold strip in Hct.
    (* the head of [rev b] is the last of [b], a suffix of [rev a] *)
    set (a := drop_while is_whitespace s) in *.
    set (b := drop_while is_whitespace (rev a)) in *.
    destruct (drop_while_suffix is_whitespace (rev a)) as (pre & Hpre & _).
    fold b in Hpre.
    assert (Hb : b = rev t ++ [c]).
    { rewrite <- (rev_involutive b), Hct. reflexivity. }
    assert (Ha : a = c :: t ++ rev pre).
    { rewrite <- (rev_involutive a), Hpre, Hb, !rev_app_distr, rev_involutive.
      reflexivity. }
    apply (drop_while_head is_whitespace s Ha).
  - intros c t Hct. unfold strip in Hct.
    set (b := drop_while is_whitespace (rev (drop_while is_whitespace s))) in *.
    assert (Hb : b = c :: rev t).
    { rewrite <- (rev_involutive b), Hct, rev_app_distr. reflexivity. }
    apply (drop_while_head _ _ Hb).
Qed.

Lemma split_on_no_sep (sep : N) (s piece : pystr) :
  In piece (split_on sep s) -> ~ In sep piece.
Proof.
  revert piece. induction s as [|c t IH]; intros piece.
  - intros [<- | []] [].
  - simpl. destruct (c =? sep)%N eqn:Hc.
    + intros [<- | Hin]; [intros [] | now apply IH].
    + pose proof (split_on_nonempty sep t) as Hne.
      destruct (split_on sep t) as [|w ws]; [congruence|].
      intros [<- | Hin].
      * intros [-> | Hin]; [now rewrite N.eqb_refl in Hc|].
        apply (IH w); [now left | assumption].
      * apply IH. now right.
Qed.

(** X8. Every skill read from the skills field is non-empty, contains no
    comma, and neither starts nor ends with whitespace; a field that holds
    only commas and whitespace gives no skill at all. *)
Theorem parsed_skills_are_clean (skills_input : pystr) :
  (forall skill, In skill (parse_skills skills_input) ->
     skill <> []
     /\ ~ In 44%N skill
     /\ (forall c t, skill = c :: t -> is_whitespace c = false)
     /\ (forall c t, skill = t ++ [c] -> is_whitespace c = false))
  /\ (forallb (fun c => is_whitespace c || (c =? 44)%N) skills_input = true ->
      parse_skills skills_input = []).
Proof.
  split.
  - intros skill Hin. unfold parse_skills in Hin.
    apply filter_In in Hin as [Hin Hne].
    apply in_map_iff in Hin as (piece & <- & Hpiece).
    split; [|split].
    + intros Hnil. rewrite Hnil in Hne. discriminate.
    + intros Hc. apply strip_In in Hc. now apply (split_on_no_sep _ _ _ Hpiece).
    + apply strip_fixed_iff, strip_idempotent.
  - intros Hall. unfold parse_skills.
    assert (Hpieces : forall piece, In piece (split_on 44 skills_input) ->
                                    forallb is_whitespace piece = true).
    { induction skills_input as [|c t IH]; intros piece.
      - intros [<- | []]. reflexivity.
      - simpl in Hall. apply andb_prop in Hall as [Hc Ht].
        simpl. destruct (c =? 44)%N eqn:H44.
        + intros [<- | Hin]; [reflexivity | now apply IH].
        + rewrite orb_false_r in Hc.
          pose proof (split_on_nonempty 44 t) as Hne.
          destruct (split_on 44 t) as [|w ws]; [congruence|].
          intros [<- | Hin].
          * simpl. rewrite Hc. apply IH; [assumption | now left].
          * apply IH; [assumption | now right]. }
    assert (Hstrip : forall piece, forallb is_whitespace piece = true ->
                                   strip piece = []).
    { intros piece Hp. unfold strip.
      assert (Hd : forall l, forallb is_whitespace l = true ->
                             drop_while is_whitespace l = []).
      { induction l as [|c t IH]; [reflexivity|].
        simpl. intros H. apply andb_prop in H as [-> Ht]. now apply IH. }
      now rewrite (Hd _ Hp). }
    induction (split_on 44 skills_input) as [|piece rest IH]; [reflexivity|].
    simpl. rewrite (Hstrip piece) by (apply Hpieces; now left).
    simpl. apply IH. intros q Hq. apply Hpieces. now right.
Qed.

Lemma split_on_app (sep : N) (a b : pystr) :
  ~ In sep a -> split_on sep (a ++ sep :: b) = a :: split_on sep b.
Proof.
  induction a as [|c t IH]; intros Hno.
  - simpl. now rewrite N.eqb_refl.
  - simpl. destruct (c =? sep)%N eqn:Hc.
    + apply N.eqb_eq in Hc. exfalso. apply Hno. now left.
    + rewrite IH by (intros H; apply Hno; now right). reflexivity.
Qed.

Lemma split_on_whole (sep : N) (a : pystr) :
  ~ In sep a -> split_on sep a = [a].
Proof.
  induction a as [|c t IH]; intros Hno; [reflexivity|].
  simpl. destruct (c =? sep)%N eqn:Hc.
  - apply N.eqb_eq in Hc. exfalso. apply Hno. now left.
  - rewrite IH by (intros H; apply Hno; now right). reflexivity.
Qed.

Lemma strip_leading_space (s : pystr) : strip (32%N :: s) = strip s.
Proof. reflexivity. Qed.

(** X9. Reading the skills field undoes the joining that [find_jobs] does:
    for skills that are non-empty, comma-free and stripped, the text
    [", ".join(skills)] is read back as the same list. *)
Theorem parse_skills_of_joined (skills : list pystr) :
  (forall skill, In skill skills ->
     skill <> [] /\ ~ In 44%N skill /\ strip skill = skill) ->
  parse_skills (join (py ", ") skills) = skills.
Proof.
  change (py ", ") with [44%N; 32%N].
  unfold parse_skills.
  induction skills as [|s rest IH]; intros Hall; [reflexivity|].
  destruct (Hall s (or_introl eq_refl)) as (Hne & Hcomma & Hstrip).
  assert (Hkeep : truthy (PStr s) = true).
  { destruct s; [congruence | reflexivity]. }
  destruct rest as [|s' rest].
  - cbn [join]. rewrite (@split_on_whole 44 s Hcomma). cbn [map filter].
    rewrite Hstrip, Hkeep. reflexivity.
  - assert (Hrest : forall skill, In skill (s' :: rest) ->
              skill <> [] /\ ~ In 44%N skill /\ strip skill = skill)
      by (intros k Hk; apply Hall; now right).
    specialize (IH Hrest).
    change (join [44%N; 32%N] (s :: s' :: rest))
      with (s ++ 44%N :: (32%N :: join [44%N; 32%N] (s' :: rest))).
    rewrite (@split_on_app 44 s _ Hcomma). cbn [map filter].
    rewrite Hstrip, Hkeep. f_equal.
    (* the leading space of the next piece is stripped *)
    destruct (Hrest s' (or_introl eq_refl)) as (Hne' & Hcomma' & Hstrip').
    destruct rest as [|s'' rest'].
    + cbn [join] in IH |- *.
      rewrite (@split_on_whole 44 s' Hcomma') in IH.
      assert (H32 : ~ In 44%N (32%N :: s')).
      { intros [H | H]; [discriminate | contradiction]. }
      rewrite (@split_on_whole 44 _ H32). cbn [map filter] in IH |- *.
      now rewrite strip_leading_space.
    + change (join [44%N; 32%N] (s' :: s'' :: rest'))
        with (s' ++ 44%N :: (32%N :: join [44%N; 32%N] (s'' :: rest'))) in IH |- *.
      rewrite (@split_on_app 44 s' _ Hcomma') in IH.
      assert (H32 : ~ In 44%N (32%N :: s')).
      { intros [H | H]; [discriminate | contradiction]. }
      change (32%N :: s' ++ 44%N :: 32%N :: join [44%N; 32%N] (s'' :: rest'))
        with ((32%N :: s') ++ 44%N :: 32%N :: join [44%N; 32%N] (s'' :: rest')).
      rewrite (@split_on_app 44 _ _ H32). cbn [map filter] in IH |- *.
      now rewrite strip_leading_space.
Qed.

End Skills.

(* ===================================================================== *)
(** * The session's agent *)
(* ===================================================================== *)

Section SessionAgent.

Context {U : UnicodeData} {F : Streamlit}.

(** X10. [job_agent_create] never replaces an agent: when the session holds
    one, the call changes nothing, whatever the three keys hold or lack, so a
    second call after a successful one has no effect. Without an agent and
    with a key that is not set, it raises an [AttributeError] and creates
    nothing. *)
Theorem job_agent_create_keeps_the_agent (p : page) :
  (session_state.job_agent (session p) <> None ->
   job_agent_create p = (Return tt, p))
  /\ (forall p', job_agent_create p = (Return tt, p') ->
        session_state.job_agent (session p') <> None
        /\ job_agent_create p' = (Return tt, p'))
  /\ (session_state.job_agent (session p) = None ->
      session_state.firecrawl_key (session p) = None
      \/ session_state.hf_key (session p) = None
      \/ session_state.model_url (session p) = None ->
      exists e,
        job_agent_create p = (Raise e, p)
        /\ exc_class e = py "AttributeError").
Proof.
  assert (Hkept : forall q, session_state.job_agent (session q) <> None ->
                            job_agent_create q = (Return tt, q)).
  { intros q Hq. unfold job_agent_create, ui_bind, has_job_agent.
    destruct (session_state.job_agent (session q)); [reflexivity | congruence]. }
  split; [apply Hkept|]. split.
  - intros p' Hrun.
    assert (Hp' : session_state.job_agent (session p') <> None).
    { revert Hrun.
      unfold job_agent_create, ui_bind, has_job_agent, session_attribute,
        update_session, ui_ret.
      destruct (session_state.job_agent (session p)) eqn:Ha; cbn [negb].
      - intros [= <-]. congruence.
      - destruct (session_state.firecrawl_key (session p)); [|discriminate].
        destruct (session_state.hf_key (session p)); [|discriminate].
        destruct (session_state.model_url (session p)); [|discriminate].
        intros [= <-]. discriminate. }
    split; [exact Hp' | now apply Hkept].
  - intros Hnone Hkeys.
    unfold job_agent_create, ui_bind, has_job_agent, session_attribute.
    rewrite Hnone. cbn [negb].
    destruct (session_state.firecrawl_key (session p));
      [|eexists; split; reflexivity].
    destruct (session_state.hf_key (session p));
      [|eexists; split; reflexivity].
    destruct (session_state.model_url (session p));
      [|eexists; split; reflexivity].
    destruct Hkeys as [H | [H | H]]; discriminate.
Qed.

End SessionAgent.

(* ===================================================================== *)
(** * One run of the script *)
(* ===================================================================== *)

Section Script.

Context {U : UnicodeData} {F : Streamlit}.
Variable E : Env.

Lemma find_jobs_escape jt loc exp skills (st : state) (e : pyexc) :
  fst (find_jobs E jt loc exp skills st) = Raise e -> exc_is_Exception e = false.
Proof.
  rewrite find_jobs_run. cbv zeta.
  destruct (find_jobs_raw_response E jt loc exp skills st) as [r | e'].
  - destruct (records_of (py "job_postings") r) as [jobs | e'']; [|discriminate].
    destruct (truthy jobs); [apply generate_text_escape | discriminate].
  - destruct (exc_is_Exception e') eqn:He'; [discriminate|].
    cbn [fst]. now intros [= <-].
Qed.

Lemma get_industry_trends_escape cat (st : state) (e : pyexc) :
  fst (get_industry_trends E cat st) = Raise e -> exc_is_Exception e = false.
Proof.
  rewrite get_industry_trends_run. cbv zeta.
  destruct (get_industry_trends_raw_response E cat st) as [r | e'].
  - destruct (records_of (py "industry_trends") r) as [v | e'']; [|discriminate].
    destruct (truthy v); [apply generate_text_escape | discriminate].
  - destruct (exc_is_Exception e') eqn:He'; [discriminate|].
    cbn [fst]. now intros [= <-].
Qed.

Lemma session_eta (s : session_state.t) (a : JobSearchingAgent) :
  session_state.job_agent s = Some a ->
  {| session_state.firecrawl_key := session_state.firecrawl_key s;
     session_state.hf_key := session_state.hf_key s;
     session_state.model_url := session_state.model_url s;
     session_state.job_agent := Some a |} = s.
Proof. destruct s. cbn. now intros ->. Qed.

Lemma state_eta (st : state) : {| self := self st; trace := trace st |} = st.
Proof. now destruct st. Qed.

Lemma page_eta (p : page) :
  {| session := session p; shown := shown p; sent := sent p |} = p.
Proof. now destruct p. Qed.

(** Symbolic execution of the script on a page given by its parts. *)
Ltac run_script :=
  cbv beta iota zeta delta
    [main ui_bind ui_try_except show update_session job_agent_create
       has_job_agent session_attribute ui_ret on_job_agent configured with_shown
       agent_state session shown sent session_state.job_agent
       session_state.firecrawl_key session_state.hf_key session_state.model_url
       negb].

Lemma main_unclicked (w : widgets.t) (p : page) :
  widgets.clicked w = false ->
  main E w p = (Return tt, configured w p).
Proof.
  intros Hclick. destruct p as [[k1 k2 k3 agent] els tr].
  run_script. rewrite Hclick. fold (credentials_complete w).
  destruct (credentials_complete w).
  - destruct agent; cbv beta iota; rewrite <- !app_assoc; reflexivity.
  - cbv beta iota. rewrite <- !app_assoc. reflexivity.
Qed.

Lemma main_without_agent (w : widgets.t) (p : page) :
  widgets.clicked w = true ->
  session_state.job_agent (session (configured w p)) = None ->
  main E w p
  = (Return tt,
     with_shown [st_error (py "⚠️ Please enter your API keys in the sidebar first!")]
       (configured w p)).
Proof.
  intros Hclick. destruct p as [[k1 k2 k3 agent] els tr].
  run_script. rewrite Hclick. fold (credentials_complete w).
  destruct (credentials_complete w).
  - destruct agent; discriminate.
  - intros ->. cbv beta iota. rewrite <- !app_assoc. reflexivity.
Qed.

Lemma main_incomplete_form (w : widgets.t) (p : page) :
  widgets.clicked w = true ->
  session_state.job_agent (session (configured w p)) <> None ->
  truthy (PStr (widgets.job_title w)) = false
  \/ truthy (PStr (widgets.location w)) = false ->
  main E w p
  = (Return tt,
     with_shown [st_error (py "⚠️ Please enter both job title and location!")]
       (configured w p)).
Proof.
  intros Hclick Hagent Hblank.
  assert (Hb : (if truthy (PStr (widgets.job_title w)) then false else true)
               || (if truthy (PStr (widgets.location w)) then false else true)
               = true).
  { destruct Hblank as [-> | ->]; [reflexivity | apply orb_true_r]. }
  revert Hagent. destruct p as [[k1 k2 k3 agent] els tr].
  run_script. rewrite Hclick, Hb. fold (credentials_complete w).
  destruct (credentials_complete w).
  - destruct agent; cbv beta iota; intros _; rewrite <- !app_assoc; reflexivity.
  - destruct agent; [|congruence].
    intros _. cbv beta iota. rewrite <- !app_assoc. reflexivity.
Qed.

Lemma main_search (w : widgets.t) (p : page) (agent : JobSearchingAgent) :
  widgets.clicked w = true ->
  session_state.job_agent (session (configured w p)) = Some agent ->
  truthy (PStr (widgets.job_title w)) = true ->
  truthy (PStr (widgets.location w)) = true ->
  main E w p =
  let p0 := configured w p in
  let skills := parse_skills (widgets.skills_input w) in
  let searching :=
    shown p0
    ++ (if truthy (PList (map PStr skills)) then []
        else [st_warning (py "⚠️ No skills provided. Adding skills will improve job matching.")])
    ++ [st_spinner (py "🔍 Searching for jobs...")] in
  match find_jobs E (widgets.job_title w) (widgets.location w)
          (widgets.experience_years w) skills (agent_state agent p) with
  | (Raise e, st1) =>
      (Raise e, {| session := session p0; shown := searching; sent := trace st1 |})
  | (Return job_results, st1) =>
      let analyzing :=
        searching
        ++ [ st_success (py "✅ Job search completed!");
             st_subheader (py "💼 Job Recommendations");
             st_markdown job_results;
             st_divider;
             st_spinner (py "📊 Analyzing industry trends...") ] in
      match get_industry_trends E (widgets.job_category w)
              {| self := agent; trace := trace st1 |} with
      | (Raise e, st2) =>
          (Raise e, {| session := session p0; shown := analyzing; sent := trace st2 |})
      | (Return industry_trends, st2) =>
          (Return tt,
           {| session := session p0;
              shown :=
                analyzing
                ++ [ st_success (py "✅ Industry analysis completed!");
                     st_expander (py "📈 " ++ widgets.job_category w
                                  ++ py " Industry Trends Analysis");
                     st_markdown industry_trends ];
              sent := trace st2 |})
      end
  end.
Proof.
  intros Hclick Hagent Htitle Hloc.
  pose proof (find_jobs_keeps_self E (widgets.job_title w) (widgets.location w)
                (widgets.experience_years w)
                (parse_skills (widgets.skills_input w)) (agent_state agent p))
    as Hself1.
  pose proof (@find_jobs_escape (widgets.job_title w) (widgets.location w)
                (widgets.experience_years w)
                (parse_skills (widgets.skills_input w)) (agent_state agent p))
    as Hesc1.
  revert Hagent Hself1 Hesc1. destruct p as [[k1 k2 k3 held] els tr].
  run_script. rewrite Hclick, Htitle, Hloc. fold (credentials_complete w).
  cbv beta iota delta [orb].
  destruct (credentials_complete w); destruct held as [held |];
    cbv beta iota; intros Hagent; try discriminate Hagent;
    injection Hagent as ->; intros Hself1 Hesc1.
  all: destruct (truthy (PList (map PStr (parse_skills (widgets.skills_input w)))));
    cbv beta iota.
  all: destruct (find_jobs E (widgets.job_title w) (widgets.location w)
                   (widgets.experience_years w)
                   (parse_skills (widgets.skills_input w))
                   {| self := agent; trace := tr |}) as [[job_results | e] st1];
    cbn [fst snd self] in Hself1, Hesc1; cbv beta iota.
  all: try (rewrite (Hesc1 e eq_refl), Hself1; rewrite <- !app_assoc;
            cbn [app]; reflexivity).
  all: rewrite Hself1.
  all: pose proof (get_industry_trends_keeps_self E (widgets.job_category w)
                     {| self := agent; trace := trace st1 |}) as Hself2;
    pose proof (@get_industry_trends_escape (widgets.job_category w)
                  {| self := agent; trace := trace st1 |}) as Hesc2.
  all: destruct (get_industry_trends E (widgets.job_category w)
                   {| self := agent; trace := trace st1 |})
         as [[industry_trends | e] st2];
    cbn [fst snd self] in Hself2, Hesc2; cbv beta iota.
  all: try (rewrite (Hesc2 e eq_refl)).
  all: rewrite Hself2; rewrite <- !app_assoc; cbn [app]; reflexivity.
Qed.

End Script.

(* ===================================================================== *)
(** * What the script sends and shows *)
(* ===================================================================== *)

Section ScriptProperties.

Context {U : UnicodeData} {F : Streamlit}.
Variable E : Env.

Lemma truthy_empty_str : truthy (PStr []) = false.
Proof. reflexivity. Qed.

Lemma configured_agent (w : widgets.t) (p : page) :
  session_state.job_agent (session (configured w p)) = None
  <-> session_state.job_agent (session p) = None
      /\ credentials_complete w = false.
Proof.
  unfold configured. cbn [session].
  destruct (credentials_complete w); cbn [session_state.job_agent].
  - destruct (session_state.job_agent (session p)); split;
      [discriminate | intros [_ H]; discriminate
      | discriminate | intros [_ H]; discriminate].
  - split; [intros H; now split | now intros [H _]].
Qed.

Lemma configured_keeps_agent (w : widgets.t) (p : page) (a : JobSearchingAgent) :
  session_state.job_agent (session p) = Some a ->
  session_state.job_agent (session (configured w p)) = Some a.
Proof.
  intros Ha. unfold configured. cbn [session].
  destruct (credentials_complete w); cbn [session_state.job_agent];
    now rewrite Ha.
Qed.

(** X11. A run of the script sends nothing to either service unless the
    button was clicked, an agent is available (one is held by the session,
    or all three credentials are filled in) and both the job title and the
    location are non-empty. With the button clicked it then shows exactly one
    error: the request for API keys when no agent is available, otherwise the
    request for title and location. *)
Theorem main_sends_nothing_unless_ready (w : widgets.t) (p : page) :
  let p' := snd (main E w p) in
  (widgets.clicked w = false ->
   main E w p = (Return tt, configured w p) /\ sent p' = sent p)
  /\ (widgets.clicked w = true ->
      session_state.job_agent (session p) = None ->
      credentials_complete w = false ->
      fst (main E w p) = Return tt
      /\ sent p' = sent p
      /\ shown p'
         = shown (configured w p)
           ++ [st_error (py "⚠️ Please enter your API keys in the sidebar first!")])
  /\ (widgets.clicked w = true ->
      session_state.job_agent (session (configured w p)) <> None ->
      widgets.job_title w = [] \/ widgets.location w = [] ->
      fst (main E w p) = Return tt
      /\ sent p' = sent p
      /\ shown p'
         = shown (configured w p)
           ++ [st_error (py "⚠️ Please enter both job title and location!")]).
Proof.
  cbv zeta. split; [|split].
  - intros Hclick. rewrite (main_unclicked E w p Hclick). now split.
  - intros Hclick Hnone Hcred.
    rewrite (main_without_agent E w p Hclick)
      by (apply configured_agent; now split).
    repeat split.
  - intros Hclick Hagent Hblank.
    rewrite (main_incomplete_form E w p Hclick Hagent)
      by (destruct Hblank as [-> | ->]; [left | right]; reflexivity).
    repeat split.
Qed.

(** ** The events of one operation *)

Lemma find_jobs_events jt loc exp skills (st : state) :
  exists new,
    trace (snd (find_jobs E jt loc exp skills st)) = trace st ++ new
    /\ Forall (uses_credentials_of (self st)) new
    /\ extraction_requests new
       = [(find_jobs_urls jt loc,
           find_jobs_extract_prompt jt loc exp (join (py ", ") skills),
           ExtractSchema)].
Proof.
  destruct (find_jobs_state E jt loc exp skills st) as [-> | [jobs ->]].
  - eexists. split; [|split].
    + unfold after_find_jobs_extraction, record. cbn [trace self].
      rewrite <- app_assoc. reflexivity.
    + repeat constructor.
    + reflexivity.
  - eexists. split; [|split].
    + rewrite after_generation_trace.
      unfold after_find_jobs_extraction, record. cbn [trace self].
      rewrite <- !app_assoc. reflexivity.
    + repeat constructor.
    + reflexivity.
Qed.

Lemma get_industry_trends_events cat (st : state) :
  exists new,
    trace (snd (get_industry_trends E cat st)) = trace st ++ new
    /\ Forall (uses_credentials_of (self st)) new
    /\ extraction_requests new
       = [(get_industry_trends_urls cat, get_industry_trends_extract_prompt cat,
           IndustryTrendsSchema)].
Proof.
  destruct (get_industry_trends_state E cat st) as [-> | [v ->]].
  - eexists. split; [|split].
    + unfold after_get_industry_trends_extraction, record. cbn [trace self].
      rewrite <- app_assoc. reflexivity.
    + repeat constructor.
    + reflexivity.
  - eexists. split; [|split].
    + rewrite after_generation_trace.
      unfold after_get_industry_trends_extraction, record. cbn [trace self].
      rewrite <- !app_assoc. reflexivity.
    + repeat constructor.
    + reflexivity.
Qed.

Lemma main_search_sent (w : widgets.t) (p : page) (agent : JobSearchingAgent) :
  widgets.clicked w = true ->
  session_state.job_agent (session (configured w p)) = Some agent ->
  truthy (PStr (widgets.job_title w)) = true ->
  truthy (PStr (widgets.location w)) = true ->
  let skills := parse_skills (widgets.skills_input w) in
  let jobs_request :=
    (find_jobs_urls (widgets.job_title w) (widgets.location w),
     find_jobs_extract_prompt (widgets.job_title w) (widgets.location w)
       (widgets.experience_years w) (join (py ", ") skills),
     ExtractSchema) in
  let trends_request :=
    (get_industry_trends_urls (widgets.job_category w),
     get_industry_trends_extract_prompt (widgets.job_category w),
     IndustryTrendsSchema) in
  session (snd (main E w p)) = session (configured w p)
  /\ exists new,
      sent (snd (main E w p)) = sent p ++ new
      /\ Forall (uses_credentials_of agent) new
      /\ extraction_requests new
         = jobs_request
           :: match fst (find_jobs E (widgets.job_title w) (widgets.location w)
                           (widgets.experience_years w) skills
                           (agent_state agent p)) with
              | Return _ => [trends_request]
              | Raise _ => []
              end.
Proof.
  intros Hclick Hagent Htitle Hloc. cbv zeta.
  rewrite (@main_search U F E w p agent Hclick Hagent Htitle Hloc). cbv zeta.
  destruct (find_jobs_events (widgets.job_title w) (widgets.location w)
              (widgets.experience_years w)
              (parse_skills (widgets.skills_input w)) (agent_state agent p))
    as (new1 & Htr1 & Hcred1 & Hreq1).
  destruct (find_jobs E (widgets.job_title w) (widgets.location w)
              (widgets.experience_years w)
              (parse_skills (widgets.skills_input w)) (agent_state agent p))
    as [[job_results | e] st1]; cbn [fst snd] in Htr1 |- *.
  - destruct (get_industry_trends_events (widgets.job_category w)
                {| self := agent; trace := trace st1 |})
      as (new2 & Htr2 & Hcred2 & Hreq2).
    destruct (get_industry_trends E (widgets.job_category w)
                {| self := agent; trace := trace st1 |})
      as [[industry_trends | e] st2]; cbn [fst snd self trace] in Htr2, Hcred2 |- *.
    all: split; [reflexivity|]; exists (new1 ++ new2); split; [|split];
      [ cbn [sent]; rewrite Htr2, Htr1; cbn [agent_state trace];
        now rewrite app_assoc
      | apply Forall_app; split; assumption
      | rewrite extraction_requests_app, Hreq1, Hreq2; reflexivity ].
  - split; [reflexivity|]. exists new1. split; [|split]; assumption.
Qed.

(** X12. Once the session holds an agent, the script never replaces it:
    after any run the same agent is there, and every request the run sends
    carries that agent's keys and goes to its endpoint, even when the three
    sidebar fields hold other values, which the run stores in the session
    state next to it. *)
Theorem held_agent_is_kept
    (w : widgets.t) (p : page) (agent : JobSearchingAgent) :
  session_state.job_agent (session p) = Some agent ->
  let p' := snd (main E w p) in
  session_state.job_agent (session p') = Some agent
  /\ (credentials_complete w = true ->
      session_state.firecrawl_key (session p') = Some (widgets.firecrawl_key w)
      /\ session_state.hf_key (session p') = Some (widgets.hf_key w)
      /\ session_state.model_url (session p') = Some (widgets.model_url w))
  /\ exists new,
      sent p' = sent p ++ new /\ Forall (uses_credentials_of agent) new.
Proof.
  intros Hheld p'. subst p'.
  pose proof (@configured_keeps_agent w p agent Hheld) as Hagent.
  assert (Hkeys : credentials_complete w = true ->
            session_state.firecrawl_key (session (configured w p))
            = Some (widgets.firecrawl_key w)
            /\ session_state.hf_key (session (configured w p))
               = Some (widgets.hf_key w)
            /\ session_state.model_url (session (configured w p))
               = Some (widgets.model_url w)).
  { intros Hc. unfold configured. cbn [session]. rewrite Hc. repeat split. }
  assert (Hsame : forall q,
            session q = session (configured w p) -> sent q = sent p ->
            session_state.job_agent (session q) = Some agent
            /\ (credentials_complete w = true ->
                session_state.firecrawl_key (session q)
                = Some (widgets.firecrawl_key w)
                /\ session_state.hf_key (session q) = Some (widgets.hf_key w)
                /\ session_state.model_url (session q)
                   = Some (widgets.model_url w))
            /\ exists new,
                sent q = sent p ++ new /\ Forall (uses_credentials_of agent) new).
  { intros q -> ->. split; [exact Hagent|]. split; [exact Hkeys|].
    exists []. split; [now rewrite app_nil_r | constructor]. }
  destruct (widgets.clicked w) eqn:Hclick.
  2:{ rewrite (main_unclicked E w p Hclick). now apply Hsame. }
  destruct (truthy (PStr (widgets.job_title w))) eqn:Htitle.
  2:{ rewrite (main_incomplete_form E w p Hclick) by (congruence || now left).
      now apply Hsame. }
  destruct (truthy (PStr (widgets.location w))) eqn:Hloc.
  2:{ rewrite (main_incomplete_form E w p Hclick) by (congruence || now right).
      now apply Hsame. }
  destruct (@main_search_sent w p agent Hclick Hagent Htitle Hloc)
    as (Hsess & new & Hsent & Hcred & _).
  rewrite Hsess. split; [exact Hagent|]. split; [exact Hkeys|].
  exists new. now split.
Qed.

Lemma truthy_str (s : pystr) : s <> [] -> truthy (PStr s) = true.
Proof. destruct s; [congruence | reflexivity]. Qed.

(** X13. A search sends the extraction request of [find_jobs] first, built
    from the title, the location, the years and the cleaned skills joined by
    ", ", and after it, if [find_jobs] returned, the one of
    [get_industry_trends] for the chosen category; no other extraction
    request is sent. *)
Theorem search_requests_in_order
    (w : widgets.t) (p : page) (agent : JobSearchingAgent) :
  widgets.clicked w = true ->
  session_state.job_agent (session (configured w p)) = Some agent ->
  widgets.job_title w <> [] ->
  widgets.location w <> [] ->
  let skills := parse_skills (widgets.skills_input w) in
  let jobs_request :=
    (find_jobs_urls (widgets.job_title w) (widgets.location w),
     find_jobs_extract_prompt (widgets.job_title w) (widgets.location w)
       (widgets.experience_years w) (join (py ", ") skills),
     ExtractSchema) in
  let trends_request :=
    (get_industry_trends_urls (widgets.job_category w),
     get_industry_trends_extract_prompt (widgets.job_category w),
     IndustryTrendsSchema) in
  extraction_requests (sent (snd (main E w p)))
  = extraction_requests (sent p)
    ++ jobs_request
       :: match fst (find_jobs E (widgets.job_title w) (widgets.location w)
                       (widgets.experience_years w) skills (agent_state agent p)) with
          | Return _ => [trends_request]
          | Raise _ => []
          end.
Proof.
  intros Hclick Hagent Htitle Hloc. cbv zeta.
  destruct (@main_search_sent w p agent Hclick Hagent
              (truthy_str Htitle) (truthy_str Hloc))
    as (_ & new & Hsent & _ & Hreq).
  now rewrite Hsent, extraction_requests_app, Hreq.
Qed.

Lemma configured_errors (w : widgets.t) (p : page) (msg : pystr) :
  In (st_error msg) (shown (configured w p)) -> In (st_error msg) (shown p).
Proof.
  unfold configured. cbn [shown]. intros Hin.
  repeat (apply in_app_or in Hin as [Hin | Hin]); [assumption | | |].
  - cbn [In] in Hin. repeat (destruct Hin as [Hin | Hin]; try discriminate).
    destruct Hin.
  - destruct (credentials_complete w); cbn [In] in Hin;
      repeat (destruct Hin as [Hin | Hin]; try discriminate); destruct Hin.
  - cbn [In] in Hin. repeat (destruct Hin as [Hin | Hin]; try discriminate).
    destruct Hin.
Qed.

(** X14. The handler of [main] never runs: the only errors a run adds to
    the page are the request for API keys and the request for title and
    location, never "An error occurred: ..."; and an exception that leaves
    [main] does not derive from [Exception]. *)
Theorem main_shows_only_its_two_errors (w : widgets.t) (p : page) :
  (forall msg,
      In (st_error msg) (shown (snd (main E w p))) ->
      In (st_error msg) (shown p)
      \/ msg = py "⚠️ Please enter your API keys in the sidebar first!"
      \/ msg = py "⚠️ Please enter both job title and location!")
  /\ (forall e, fst (main E w p) = Raise e -> exc_is_Exception e = false).
Proof.
  destruct (widgets.clicked w) eqn:Hclick.
  2:{ rewrite (main_unclicked E w p Hclick). split; [|discriminate].
      intros msg Hin. left. now apply (configured_errors w p). }
  destruct (session_state.job_agent (session (configured w p)))
    as [agent |] eqn:Hagent.
  2:{ rewrite (main_without_agent E w p Hclick Hagent). split; [|discriminate].
      intros msg Hin. cbn [snd with_shown shown] in Hin.
      apply in_app_or in Hin as [Hin | Hin];
        [left; now apply (configured_errors w p)|].
      cbn [In] in Hin. destruct Hin as [[= <-] | []]. right; now left. }
  destruct (truthy (PStr (widgets.job_title w))) eqn:Htitle.
  2:{ rewrite (main_incomplete_form E w p Hclick) by (congruence || now left).
      split; [|discriminate].
      intros msg Hin. cbn [snd with_shown shown] in Hin.
      apply in_app_or in Hin as [Hin | Hin];
        [left; now apply (configured_errors w p)|].
      cbn [In] in Hin. destruct Hin as [[= <-] | []]. right; now right. }
  destruct (truthy (PStr (widgets.location w))) eqn:Hloc.
  2:{ rewrite (main_incomplete_form E w p Hclick) by (congruence || now right).
      split; [|discriminate].
      intros msg Hin. cbn [snd with_shown shown] in Hin.
      apply in_app_or in Hin as [Hin | Hin];
        [left; now apply (configured_errors w p)|].
      cbn [In] in Hin. destruct Hin as [[= <-] | []]. right; now right. }
  rewrite (@main_search U F E w p agent Hclick Hagent Htitle Hloc). cbv zeta.
  pose proof (@find_jobs_escape U E (widgets.job_title w) (widgets.location w)
                (widgets.experience_years w)
                (parse_skills (widgets.skills_input w)) (agent_state agent p))
    as Hesc1.
  destruct (find_jobs E (widgets.job_title w) (widgets.location w)
              (widgets.experience_years w)
              (parse_skills (widgets.skills_input w)) (agent_state agent p))
    as [[job_results | e1] st1]; cbn [fst] in Hesc1.
  - pose proof (@get_industry_trends_escape U E (widgets.job_category w)
                  {| self := agent; trace := trace st1 |}) as Hesc2.
    destruct (get_industry_trends E (widgets.job_category w)
                {| self := agent; trace := trace st1 |})
      as [[industry_trends | e2] st2]; cbn [fst snd shown] in Hesc2 |- *.
    all: split; [| first [discriminate | intros e [= <-]; now apply Hesc2]].
    all: intros msg Hin; left; apply (configured_errors w p); revert Hin;
      generalize (shown (configured w p)) as base; intros base Hin.
    all: repeat (apply in_app_or in Hin as [Hin | Hin]); try assumption.
    all: try (destruct (truthy (PList (map PStr (parse_skills (widgets.skills_input w)))))).
    all: cbn [In] in Hin;
      repeat (destruct Hin as [Hin | Hin]; try discriminate); destruct Hin.
  - cbn [fst snd shown]. split; [| intros e [= <-]; now apply Hesc1].
    intros msg Hin. left. apply (configured_errors w p). revert Hin.
    generalize (shown (configured w p)) as base. intros base Hin.
    repeat (apply in_app_or in Hin as [Hin | Hin]); try assumption.
    all: try (destruct (truthy (PList (map PStr (parse_skills (widgets.skills_input w)))))).
    all: cbn [In] in Hin;
      repeat (destruct Hin as [Hin | Hin]; try discriminate); destruct Hin.
Qed.

(** X15. A failed job search is reported as a success: when the extraction
    call of [find_jobs] raises an [Exception], the run still shows
    "Job search completed!" and puts the error text where the
    recommendations go, and then goes on to the industry trends. *)
Theorem failed_search_is_shown_as_completed
    (w : widgets.t) (p : page) (agent : JobSearchingAgent) (e : pyexc) :
  widgets.clicked w = true ->
  session_state.job_agent (session (configured w p)) = Some agent ->
  widgets.job_title w <> [] ->
  widgets.location w <> [] ->
  find_jobs_raw_response E (widgets.job_title w) (widgets.location w)
    (widgets.experience_years w) (parse_skills (widgets.skills_input w))
    (agent_state agent p) = Raise e ->
  exc_is_Exception e = true ->
  exists before after,
    shown (snd (main E w p))
    = before
      ++ [ st_success (py "✅ Job search completed!");
           st_subheader (py "💼 Job Recommendations");
           st_markdown
             (PStr (py "An error occurred while searching for jobs: " ++ exc_str e));
           st_divider;
           st_spinner (py "📊 Analyzing industry trends...") ]
      ++ after
    /\ extraction_requests (sent (snd (main E w p)))
       = extraction_requests (sent p)
         ++ [ (find_jobs_urls (widgets.job_title w) (widgets.location w),
               find_jobs_extract_prompt (widgets.job_title w) (widgets.location w)
                 (widgets.experience_years w)
                 (join (py ", ") (parse_skills (widgets.skills_input w))),
               ExtractSchema);
              (get_industry_trends_urls (widgets.job_category w),
               get_industry_trends_extract_prompt (widgets.job_category w),
               IndustryTrendsSchema) ].
Proof.
  intros Hclick Hagent Htitle Hloc Hraw Hexc.
  assert (Hrun : fst (find_jobs E (widgets.job_title w) (widgets.location w)
                        (widgets.experience_years w)
                        (parse_skills (widgets.skills_input w))
                        (agent_state agent p))
                 = Return (PStr (py "An error occurred while searching for jobs: "
                                 ++ exc_str e))).
  { rewrite find_jobs_run. cbv zeta. now rewrite Hraw, Hexc. }
  assert (Hreq :
    extraction_requests (sent (snd (main E w p)))
    = extraction_requests (sent p)
      ++ [ (find_jobs_urls (widgets.job_title w) (widgets.location w),
            find_jobs_extract_prompt (widgets.job_title w) (widgets.location w)
              (widgets.experience_years w)
              (join (py ", ") (parse_skills (widgets.skills_input w))),
            ExtractSchema);
           (get_industry_trends_urls (widgets.job_category w),
            get_industry_trends_extract_prompt (widgets.job_category w),
            IndustryTrendsSchema) ]).
  { destruct (@main_search_sent w p agent Hclick Hagent
                (truthy_str Htitle) (truthy_str Hloc))
      as (_ & new & Hsent & _ & Hnew).
    cbv zeta in Hnew. rewrite Hrun in Hnew.
    now rewrite Hsent, extraction_requests_app, Hnew. }
  rewrite (@main_search U F E w p agent Hclick Hagent
             (truthy_str Htitle) (truthy_str Hloc)) in Hreq |- *.
  cbv zeta in Hreq |- *.
  destruct (find_jobs E (widgets.job_title w) (widgets.location w)
              (widgets.experience_years w)
              (parse_skills (widgets.skills_input w)) (agent_state agent p))
    as [[job_results | e1] st1]; cbn [fst] in Hrun; [|discriminate].
  injection Hrun as ->.
  destruct (get_industry_trends E (widgets.job_category w)
              {| self := agent; trace := trace st1 |})
    as [[industry_trends | e2] st2]; cbn [snd shown] in Hreq |- *.
  - eexists. eexists. split; [|exact Hreq].
    rewrite <- app_assoc. reflexivity.
  - eexists. exists []. split; [|exact Hreq].
    rewrite app_nil_r. reflexivity.
Qed.

End ScriptProperties.

(* ===================================================================== *)
(** * The further properties on stub services *)
(* ===================================================================== *)

(** The runs below are on ASCII text and read no absent session key. *)
#[local] Existing Instance ascii_only.
#[local] Existing Instance any_wording.

(** One trend record found for "Data Science". *)
Lemma trends_are_summarized_witness :
  let run :=
    get_industry_trends (U := ascii_only)
      (stub (Return (extraction_of (py "industry_trends") sample_trends))
         (generation_ok (py "summary")))
      (py "Data Science") fresh in
  fst run = Return (PStr (py "summary"))
  /\ generation_prompts (trace (snd run))
     = [get_industry_trends_prompt (py "Data Science") (PList sample_trends)].
Proof.
  cbv zeta.
  destruct (@trends_are_summarized ascii_only
              (stub (Return (extraction_of (py "industry_trends") sample_trends))
                 (generation_ok (py "summary")))
              (py "Data Science") fresh
              (extraction_of (py "industry_trends") sample_trends)
              (PList sample_trends) eq_refl)
    as (Hrun & Hprompts & _).
  - do 2 eexists. repeat split; reflexivity.
  - reflexivity.
  - split; [rewrite Hrun; vm_compute; reflexivity | exact Hprompts].
Defined.

(** A response with a success flag and nothing else, and one whose data is
    a list. *)
Lemma success_without_usable_data_witness :
  fst (find_jobs (U := ascii_only)
         (stub (Return (PDict [(py "success", PBool true)]))
            (generation_ok (py "summary")))
         (py "Software Engineer") (py "New York") 2 [py "Python"; py "SQL"] fresh)
  = Return (PStr (py "An error occurred while searching for jobs: 'data'"))
  /\ fst (get_industry_trends (U := ascii_only)
            (stub (Return (PDict [(py "success", PBool true);
                                  (py "data", PList sample_trends)]))
               (generation_ok (py "summary")))
            (py "Data Science") fresh)
     = Return (PStr (py "An error occurred while fetching industry trends: 'list' object has no attribute 'get'")).
Proof.
  split.
  - destruct (proj1 (@success_without_usable_data ascii_only
                (stub (Return (PDict [(py "success", PBool true)]))
                   (generation_ok (py "summary")))
                (py "Software Engineer") (py "New York") 2%Z
                [py "Python"; py "SQL"] (py "Data Science") fresh
                [(py "success", PBool true)] eq_refl) eq_refl)
      as [Hnone _].
    destruct Hnone as [Hout _]; [reflexivity | exact Hout].
  - destruct (proj2 (@success_without_usable_data ascii_only
                (stub (Return (PDict [(py "success", PBool true);
                                      (py "data", PList sample_trends)]))
                   (generation_ok (py "summary")))
                (py "Software Engineer") (py "New York") 2%Z
                [py "Python"; py "SQL"] (py "Data Science") fresh
                [(py "success", PBool true); (py "data", PList sample_trends)]
                eq_refl) eq_refl)
      as [_ Hdata].
    destruct (Hdata (PList sample_trends)) as [Hout _];
      [reflexivity | reflexivity |].
    etransitivity; [exact Hout | vm_compute; reflexivity].
Defined.

(** Postings found, and the model endpoint answers 404. *)
Lemma generation_failure_is_the_result_witness :
  fst (find_jobs (U := ascii_only)
         (stub (Return (extraction_of (py "job_postings") two_postings))
            (Return (response_with 404 (py "Not Found") (inl (py "no JSON")))))
         (py "Software Engineer") (py "New York") 2 [py "Python"; py "SQL"] fresh)
  = Return (PStr (py "Error generating text: 404 Client Error: Not Found for url: https://api.example/model")).
Proof.
  pose proof (proj2 (@generation_failure_is_the_result ascii_only
                (stub (Return (extraction_of (py "job_postings") two_postings))
                   (Return (response_with 404 (py "Not Found") (inl (py "no JSON")))))
                (py "Software Engineer") (py "New York") 2%Z [py "Python"; py "SQL"]
                fresh (extraction_of (py "job_postings") two_postings)
                (PList two_postings) eq_refl eq_refl eq_refl)
                (response_with 404 (py "Not Found") (inl (py "no JSON")))) as Hout.
  cbv zeta in Hout.
  etransitivity; [apply Hout | vm_compute; reflexivity].
  - vm_compute. reflexivity.
  - cbn [status_code response_with]. lia.
Defined.

(** A title with "#" and "&": both reach the URL, no space does. *)
Lemma listing_urls_on_ascii_text_witness :
  ~ In 32%N (py "https://www.indeed.com/jobs?q=c#-&-.net-developer&l=new-york").
Proof.
  refine (proj2 (@listing_urls_on_ascii_text ascii_only
                   (py "C# & .NET Developer") (py "New York") eq_refl eq_refl)
            (py "https://www.indeed.com/jobs?q=c#-&-.net-developer&l=new-york") _).
  right. left. vm_compute. reflexivity.
Defined.

Lemma operations_do_not_interfere_witness :
  let E := stub (Return (extraction_of (py "job_postings") two_postings))
             (generation_ok (py "summary")) in
  fst (get_industry_trends (U := ascii_only) E (py "Data Science")
         (snd (find_jobs (U := ascii_only) E (py "Software Engineer")
                 (py "New York") 2 [py "Python"; py "SQL"] fresh)))
  = fst (get_industry_trends (U := ascii_only) E (py "Data Science") fresh).
Proof.
  cbv zeta.
  refine (proj1 (@operations_do_not_interfere ascii_only
                   (stub (Return (extraction_of (py "job_postings") two_postings))
                      (generation_ok (py "summary")))
                   (py "Software Engineer") (py "New York") 2%Z
                   [py "Python"; py "SQL"] (py "Data Science") fresh _)).
  split; intros; reflexivity.
Defined.

(** The second skill of a field typed with stray blanks and commas. *)
Lemma parsed_skills_are_clean_witness :
  py "SQL" <> [] /\ ~ In 44%N (py "SQL").
Proof.
  destruct (proj1 (parsed_skills_are_clean (py " Python,  SQL , ,React,"))
              (py "SQL")) as (Hne & Hcomma & _).
  - right. left. vm_compute. reflexivity.
  - split; assumption.
Defined.

(** The placeholder of the skills field. *)
Lemma parse_skills_of_joined_witness :
  parse_skills (py "Python, SQL, React") = [py "Python"; py "SQL"; py "React"].
Proof.
  refine (parse_skills_of_joined [py "Python"; py "SQL"; py "React"] _).
  intros skill Hin. cbn [In] in Hin.
  destruct Hin as [<- | [<- | [<- | []]]];
    (split; [discriminate | split; [vm_compute; intuition discriminate
                                   | vm_compute; reflexivity]]).
Defined.

(** A second call on the page left by a run with credentials. *)
Lemma job_agent_create_keeps_the_agent_witness :
  let p := snd (main sample_env (sample_form false) blank_page) in
  job_agent_create p = (Return tt, p).
Proof.
  cbv zeta.
  refine (proj1 (job_agent_create_keeps_the_agent
                   (snd (main sample_env (sample_form false) blank_page))) _).
  vm_compute. discriminate.
Defined.

(** The button clicked on a blank page with an empty form. *)
Lemma main_sends_nothing_unless_ready_witness :
  sent (snd (main sample_env
               {| widgets.model_url := []; widgets.hf_key := [];
                  widgets.firecrawl_key := []; widgets.job_title := [];
                  widgets.location := []; widgets.experience_years := 2;
                  widgets.skills_input := []; widgets.job_category := py "Finance";
                  widgets.clicked := true |} blank_page))
  = [].
Proof.
  refine (proj1 (proj2 (proj1 (proj2 (main_sends_nothing_unless_ready sample_env
            {| widgets.model_url := []; widgets.hf_key := [];
               widgets.firecrawl_key := []; widgets.job_title := [];
               widgets.location := []; widgets.experience_years := 2;
               widgets.skills_input := []; widgets.job_category := py "Finance";
               widgets.clicked := true |} blank_page))
            eq_refl eq_refl eq_refl))).
Defined.

(** A search after the credentials in the sidebar were changed: the agent
    of the first run is still the one in the session. *)
Lemma held_agent_is_kept_witness :
  let first := snd (main sample_env (sample_form false) blank_page) in
  let second := snd (main sample_env changed_form (rerun first)) in
  session_state.job_agent (session second) = Some sample_agent
  /\ session_state.firecrawl_key (session second) = Some (py "other-fc-key").
Proof.
  cbv zeta.
  destruct (@held_agent_is_kept ascii_only any_wording sample_env changed_form
              (rerun (snd (main sample_env (sample_form false) blank_page)))
              sample_agent)
    as (Hagent & Hkeys & _).
  - vm_compute. reflexivity.
  - split; [exact Hagent|]. apply Hkeys. vm_compute. reflexivity.
Defined.

(** A search on a blank page with the form filled in. *)
Lemma search_requests_in_order_witness :
  map (fun request => snd request)
    (extraction_requests (sent (snd (main sample_env (sample_form true) blank_page))))
  = [ExtractSchema; IndustryTrendsSchema].
Proof.
  rewrite (@search_requests_in_order ascii_only any_wording sample_env
             (sample_form true) blank_page sample_agent).
  - vm_compute. reflexivity.
  - reflexivity.
  - vm_compute. reflexivity.
  - vm_compute. discriminate.
  - vm_compute. discriminate.
Defined.

(** The one error of a click without credentials. *)
Lemma main_shows_only_its_two_errors_witness :
  In (st_error (py "⚠️ Please enter your API keys in the sidebar first!"))
     (shown blank_page)
  \/ py "⚠️ Please enter your API keys in the sidebar first!"
     = py "⚠️ Please enter your API keys in the sidebar first!"
  \/ py "⚠️ Please enter your API keys in the sidebar first!"
     = py "⚠️ Please enter both job title and location!".
Proof.
  refine (proj1 (main_shows_only_its_two_errors sample_env
                   {| widgets.model_url := []; widgets.hf_key := [];
                      widgets.firecrawl_key := []; widgets.job_title := [];
                      widgets.location := []; widgets.experience_years := 2;
                      widgets.skills_input := [];
                      widgets.job_category := py "Finance";
                      widgets.clicked := true |} blank_page)
            (py "⚠️ Please enter your API keys in the sidebar first!") _).
  vm_compute. right. right. right. right. right. right. left. reflexivity.
Defined.

(** A search while the extraction provider refuses the connection. *)
Lemma failed_search_is_shown_as_completed_witness :
  In (st_success (py "✅ Job search completed!"))
     (shown (snd (main (stub (Raise ConnectionError) (generation_ok (py "summary")))
                    (sample_form true) blank_page))).
Proof.
  destruct (@failed_search_is_shown_as_completed ascii_only any_wording
              (stub (Raise ConnectionError) (generation_ok (py "summary")))
              (sample_form true) blank_page sample_agent ConnectionError)
    as (before & after & Hshown & _).
  - reflexivity.
  - vm_compute. reflexivity.
  - vm_compute. discriminate.
  - vm_compute. discriminate.
  - reflexivity.
  - reflexivity.
  - rewrite Hshown. apply in_or_app. right. left. reflexivity.
Defined.
